(** * The insights gateway (src/app.js): request client, stream consumer,
      result cache and HTTP boundary, as a shallow embedding.

    The JavaScript of [src/app.js] is translated function by function.
    Asynchronous functions become functions that return a [Completion]
    (the promise settles with a value or with a thrown error) together with
    the list of network effects they performed.  What the host provides
    ([fetch], the [EventSource] constructor, [process.env], [Date.now],
    the outcome of [response.json()] and of [JSON.parse]) is an input of
    the model. *)

From Stdlib Require Import ZArith List Bool Lia.
From stdpp Require Import gmap strings list fin_maps pretty.

Set Warnings "-register-all".
Local Open Scope Z_scope.

(** ** JavaScript values *)

Module Js.

(** The values the program handles: what JSON can carry, and [undefined].
    A number is carried by its [Number::toString] rendering, the only
    thing the program ever does with one besides testing its truthiness
    (0 and -0 both render as 0). *)
Inductive JsVal : Type :=
| JUndefined
| JNull
| JBool (b : bool)
| JNum (repr : string)
| JStr (s : string)
| JArr (items : list JsVal)
| JObj (fields : list (string * JsVal)).

(** [!v] is [negb (truthy v)]. *)
Definition truthy (v : JsVal) : bool :=
  match v with
  | JUndefined | JNull => false
  | JBool b => b
  | JNum r => negb (String.eqb r "0" || String.eqb r "NaN")
  | JStr s => negb (String.eqb s "")
  | JArr _ | JObj _ => true
  end.

(** [a || b] *)
Definition js_or (a b : JsVal) : JsVal := if truthy a then a else b.

(** Separator-joined concatenation, [Array.prototype.join]. *)
Fixpoint join (sep : string) (parts : list string) : string :=
  match parts with
  | [] => ""
  | [p] => p
  | p :: rest => p +:+ sep +:+ join sep rest
  end.

(** The string that [String(v)], the conversion a template literal
    applies, returns when it returns (see [converts] and [ToString]
    below for when it does).  An array joins its elements with a comma,
    [null] and [undefined] elements rendering as the empty string; a
    plain object renders as [[object Object]].  The identifiers, the
    token, the stream flag and the keyword of this program are strings
    and booleans, on which the conversion always returns. *)
Fixpoint to_string (v : JsVal) : string :=
  match v with
  | JUndefined => "undefined"
  | JNull => "null"
  | JBool true => "true"
  | JBool false => "false"
  | JNum r => r
  | JStr s => s
  | JArr items =>
      join "," (List.map (fun x => match x with
                                   | JUndefined | JNull => ""
                                   | _ => to_string x
                                   end) items)
  | JObj _ => "[object Object]"
  end.

(** Whether the object has an own property of that name. *)
Definition has_own (k : string) (fs : list (string * JsVal)) : bool :=
  List.existsb (fun kv => String.eqb (fst kv) k) fs.

(** Whether [String(v)] returns.  The conversion of an object calls its
    [toString]; an object parsed from JSON that has an own property of
    that name shadows the inherited method with a value that cannot be
    called, and the conversion throws.  An array converts its elements
    in turn ([null] and [undefined] apart). *)
Fixpoint converts (v : JsVal) : bool :=
  match v with
  | JArr items => List.forallb (fun x => converts x) items
  | JObj fs => negb (has_own "toString" fs)
  | _ => true
  end.

(** Own property of an object literal; a key that JSON text repeats keeps
    its last value, so the fields are kept with the live binding first. *)
Fixpoint field (k : string) (fs : list (string * JsVal)) : JsVal :=
  match fs with
  | [] => JUndefined
  | (k', v) :: rest => if String.eqb k k' then v else field k rest
  end.

(** [v.k] on a value that is neither [null] nor [undefined], for the
    property names the program uses ([outputs], [message], [text],
    [artifacts], [stream_url]): none of them is a built-in property of a
    string, number, boolean or array. *)
Definition prop (k : string) (v : JsVal) : JsVal :=
  match v with
  | JObj fs => field k fs
  | _ => JUndefined
  end.

(** [v[0]] on a value that is neither [null] nor [undefined]. *)
Definition index0 (v : JsVal) : JsVal :=
  match v with
  | JArr items => List.hd JUndefined items
  | JObj fs => field "0" fs
  | JStr (String c _) => JStr (String c "")
  | _ => JUndefined
  end.

(** Optional chaining: [v?.k] and [v?.[0]]. *)
Definition opt (f : JsVal -> JsVal) (v : JsVal) : JsVal :=
  match v with
  | JUndefined | JNull => JUndefined
  | _ => f v
  end.

(** Default parameter values apply to [undefined] only. *)
Definition default_arg (v d : JsVal) : JsVal :=
  match v with
  | JUndefined => d
  | _ => v
  end.

(** An [Error] object: its message and, for HTTP errors, a status code. *)
Record JsError : Type := mkError {
  message : string;
  statusCode : option N
}.

Definition Error (msg : string) : JsError :=
  {| message := msg; statusCode := None |}.

(** How a call ends: with a value, or by throwing (for an [async]
    function: the promise resolves or rejects). *)
Inductive Completion (A : Type) : Type :=
| Return (a : A)
| Throw (e : JsError).

Arguments Return {A} a.
Arguments Throw {A} e.

(** [v.k] where [v] may be [null] or [undefined]: reading a property of
    either throws a [TypeError] (the message is the engine's). *)
Definition member (k : string) (v : JsVal) : Completion JsVal :=
  match v with
  | JUndefined =>
      Throw (Error ("Cannot read properties of undefined (reading '"
                    +:+ k +:+ "')"))
  | JNull =>
      Throw (Error ("Cannot read properties of null (reading '" +:+ k +:+ "')"))
  | _ => Return (prop k v)
  end.

(** [String(v)] on any value: the string, or the [TypeError] of a value
    that has no primitive form (the message is the engine's). *)
Definition ToString (v : JsVal) : Completion string :=
  if converts v then Return (to_string v)
  else Throw (Error "Cannot convert object to primitive value").

End Js.

Export Js.

(** ** Stream consumer: [LangflowClient.handleStream] *)

Module Stream.

(** What [onError] is handed: an [Error] object, or the raw event of the
    connection's [onerror]. *)
Inductive ErrArg : Type :=
| ErrObject (e : JsError)
| ErrEvent (event : string).

(** The three caller-supplied handlers.  Each is a JavaScript function, so
    each may throw. *)
Record Callbacks : Type := {
  onUpdate : JsVal -> Completion unit;
  onClose : string -> Completion unit;
  onError : ErrArg -> Completion unit
}.

(** What an observer of the consumer can see, in the order it happens. *)
Inductive Effect : Type :=
| CallUpdate (data : JsVal)
| CallClose (msg : string)
| CallError (arg : ErrArg)
| Warn (msg : string)
| EsClose
| SetTimeout (id : nat) (due : Z)
| ClearTimeout (id : nat)
| Uncaught (e : JsError).

(** The connection object together with what the closure of
    [handleStream] holds: the three handlers it was given, the variable
    [heartbeatTimeout], the host's pending timers (identifier and due
    time, in milliseconds) and the effects so far. *)
Record EventSource : Type := {
  es_url : JsVal;
  handlers : Callbacks;
  closed : bool;
  heartbeatTimeout : option nat;
  timers : list (nat * Z);
  next_timer : nat;
  log : list Effect
}.

(** Handlers run in a state-and-exception monad over the connection. *)
Definition M (A : Type) : Type := EventSource -> Completion A * EventSource.

#[global] Instance M_ret : MRet M := fun A a s => (Return a, s).
#[global] Instance M_bind : MBind M := fun A B f m s =>
  match m s with
  | (Return a, s') => f a s'
  | (Throw e, s') => (Throw e, s')
  end.

Definition lift {A} (c : Completion A) : M A := fun s => (c, s).

Definition try_catch {A} (body : M A) (handler : JsError -> M A) : M A :=
  fun s => match body s with
           | (Return a, s') => (Return a, s')
           | (Throw e, s') => handler e s'
           end.

Definition emit (e : Effect) : M unit := fun s =>
  (Return tt,
   {| es_url := es_url s; handlers := handlers s; closed := closed s;
      heartbeatTimeout := heartbeatTimeout s; timers := timers s;
      next_timer := next_timer s; log := log s ++ [e] |}).

(** [setTimeout(callback, delay)] at host time [now]: a fresh identifier,
    never 0. *)
Definition setTimeout (now delay : Z) : M nat := fun s =>
  let id := next_timer s in
  (Return id,
   {| es_url := es_url s; handlers := handlers s; closed := closed s;
      heartbeatTimeout := heartbeatTimeout s;
      timers := timers s ++ [(id, now + delay)];
      next_timer := S id;
      log := log s ++ [SetTimeout id (now + delay)] |}).

(** [clearTimeout(id)]: the timer, if still pending, never fires;
    [clearTimeout(undefined)] does nothing. *)
Definition clearTimeout (h : option nat) : M unit := fun s =>
  match h with
  | None => (Return tt, s)
  | Some id =>
      (Return tt,
       {| es_url := es_url s; handlers := handlers s; closed := closed s;
          heartbeatTimeout := heartbeatTimeout s;
          timers := List.filter (fun t => negb (Nat.eqb (fst t) id)) (timers s);
          next_timer := next_timer s;
          log := log s ++ [ClearTimeout id] |})
  end.

Definition get_heartbeatTimeout : M (option nat) := fun s =>
  (Return (heartbeatTimeout s), s).

Definition set_heartbeatTimeout (h : option nat) : M unit := fun s =>
  (Return tt,
   {| es_url := es_url s; handlers := handlers s; closed := closed s;
      heartbeatTimeout := h; timers := timers s; next_timer := next_timer s;
      log := log s |}).

(** [eventSource.close()]: idempotent on the connection. *)
Definition es_close : M unit := fun s =>
  (Return tt,
   {| es_url := es_url s; handlers := handlers s; closed := true;
      heartbeatTimeout := heartbeatTimeout s; timers := timers s;
      next_timer := next_timer s; log := log s ++ [EsClose] |}).

Definition call_onUpdate (cb : Callbacks) (data : JsVal) : M unit :=
  emit (CallUpdate data);; lift (onUpdate cb data).
Definition call_onClose (cb : Callbacks) (msg : string) : M unit :=
  emit (CallClose msg);; lift (onClose cb msg).
Definition call_onError (cb : Callbacks) (arg : ErrArg) : M unit :=
  emit (CallError arg);; lift (onError cb arg).

Definition HEARTBEAT_MS : Z := 30000.

(** The callback handed to [setTimeout] (lines 60-64). *)
Definition heartbeat_expired (cb : Callbacks) : M unit :=
  emit (Warn "Stream timeout - no data received");;
  es_close;;
  call_onError cb (ErrObject (Error "Stream timeout")).

(** [resetHeartbeat] (lines 58-65). *)
Definition resetHeartbeat (now : Z) : M unit :=
  h ← get_heartbeatTimeout;
  (match h with
   | Some _ => clearTimeout h
   | None => mret tt
   end);;
  id ← setTimeout now HEARTBEAT_MS;
  set_heartbeatTimeout (Some id).

(** [eventSource.onmessage] (lines 67-76); [parsed] is how
    [JSON.parse(event.data)] ends. *)
Definition onmessage (cb : Callbacks) (now : Z) (parsed : Completion JsVal)
  : M unit :=
  resetHeartbeat now;;
  try_catch
    (data ← lift parsed; call_onUpdate cb data)
    (fun error =>
       call_onError cb
         (ErrObject
            (Error ("Failed to parse stream data: " +:+ message error)));;
       es_close).

(** [eventSource.onerror] (lines 78-82). *)
Definition onerror (cb : Callbacks) (event : string) : M unit :=
  h ← get_heartbeatTimeout;
  clearTimeout h;;
  call_onError cb (ErrEvent event);;
  es_close.

(** The listener of the server's [close] event (lines 84-88). *)
Definition onclose (cb : Callbacks) : M unit :=
  h ← get_heartbeatTimeout;
  clearTimeout h;;
  call_onClose cb "Stream closed";;
  es_close.

(** [new EventSource(streamUrl)], once the constructor has returned; the
    variable [heartbeatTimeout] is declared and not yet assigned. *)
Definition connecting (streamUrl : JsVal) (cb : Callbacks) : EventSource :=
  {| es_url := streamUrl; handlers := cb; closed := false;
     heartbeatTimeout := None; timers := []; next_timer := 1%nat;
     log := [] |}.

(** [handleStream] (lines 50-92), entered at host time [now];
    [EventSource_new] is how the host's constructor ends on the URL. *)
Definition handleStream (EventSource_new : JsVal -> Completion unit)
    (now : Z) (streamUrl : JsVal) (cb : Callbacks) : Completion EventSource :=
  if negb (truthy streamUrl) then Throw (Error "Stream URL is required")
  else
    match EventSource_new streamUrl with
    | Throw e => Throw e
    | Return _ =>
        let eventSource := connecting streamUrl cb in
        Return (snd (resetHeartbeat now eventSource))
    end.

(** *** The host's event loop *)

(** What the host can deliver to the consumer. *)
Inductive Input : Type :=
| Message (parsed : Completion JsVal)
| TransportError (event : string)
| ServerClose
| HandleClose
| Idle.

(** An exception that escapes a handler is reported by the host. *)
Definition run_handler (h : M unit) (s : EventSource) : EventSource :=
  match h s with
  | (Return _, s') => s'
  | (Throw e, s') => snd (emit (Uncaught e) s')
  end.

Definition is_due (now : Z) (t : nat * Z) : bool := snd t <=? now.

(** Timers whose due time has come fire, oldest first; a timer that
    fired is no longer pending.  (The only timer callback there is,
    [heartbeat_expired], sets and clears no timer.) *)
Definition fire_due (now : Z) (s : EventSource) : EventSource :=
  let cb := handlers s in
  let due := List.filter (is_due now) (timers s) in
  let s0 :=
    {| es_url := es_url s; handlers := handlers s; closed := closed s;
       heartbeatTimeout := heartbeatTimeout s;
       timers := List.filter (fun t => negb (is_due now t)) (timers s);
       next_timer := next_timer s; log := log s |} in
  List.fold_left (fun acc _ => run_handler (heartbeat_expired cb) acc) due s0.

(** One turn of the loop at host time [now]: due timers first, then the
    input.  A closed connection dispatches no event; the caller may call
    [close()] on the handle at any time. *)
Definition deliver (now : Z) (i : Input) (s : EventSource) : EventSource :=
  let cb := handlers s in
  let s := fire_due now s in
  match i with
  | Idle => s
  | HandleClose => run_handler es_close s
  | Message parsed =>
      if closed s then s else run_handler (onmessage cb now parsed) s
  | TransportError event =>
      if closed s then s else run_handler (onerror cb event) s
  | ServerClose =>
      if closed s then s else run_handler (onclose cb) s
  end.

Fixpoint run (inputs : list (Z * Input)) (s : EventSource) : EventSource :=
  match inputs with
  | [] => s
  | (now, i) :: rest => run rest (deliver now i s)
  end.

End Stream.

(** ** Request client: [LangflowClient] *)

Module Client.

(** A settled [fetch]: the status line, and how [response.json()] ends. *)
Record Response : Type := {
  status : N;
  statusText : string;
  json : Completion JsVal
}.

(** [response.ok]: the status is in the range 200-299. *)
Definition ok (r : Response) : bool :=
  ((200 <=? status r) && (status r <=? 299))%N.

(** [fetch] either rejects (DNS, connection, timeout) or resolves with a
    response, whatever its status. *)
Inductive FetchOutcome : Type :=
| Rejected (cause : JsError)
| Responded (response : Response).

(** The arguments of one [fetch] call; [body] is the value handed to
    [JSON.stringify]. *)
Record Request : Type := {
  url : string;
  method : string;
  headers : list (string * string);
  body : JsVal;
  timeout : Z
}.

(** What the client asks of the outside world: a [fetch], and the
    construction of an [EventSource] on a URL. *)
Inductive IO : Type :=
| Fetch (req : Request)
| OpenStream (streamUrl : JsVal).

(** The host: the upstream as seen through [fetch], the [EventSource]
    constructor, and the environment variable [MODEL_TOKEN]. *)
Record World : Type := {
  fetch : Request -> FetchOutcome;
  EventSource_new : JsVal -> Completion unit;
  MODEL_TOKEN : JsVal
}.

Record LangflowClient : Type := {
  baseURL : JsVal;
  applicationToken : JsVal;
  this_headers : list (string * string)
}.

(** [constructor] (lines 4-14). *)
Definition new_LangflowClient (baseURL applicationToken : JsVal)
  : Completion LangflowClient :=
  if negb (truthy baseURL) || negb (truthy applicationToken) then
    Throw (Error "baseURL and applicationToken are required")
  else
    Return {| baseURL := baseURL;
              applicationToken := applicationToken;
              this_headers :=
                [("Authorization", "Bearer " +:+ to_string applicationToken);
                 ("Content-Type", "application/json")] |}.

(** [post] (lines 16-35).  The body of the [try] either throws, which
    the [catch] wraps, or reaches [return response.json()]: that promise
    is returned without being awaited, so its rejection is not caught.
    On a non-success status the template literal of line 28 reads
    [errorData.message] and converts [errorData.message ||
    response.statusText] to a string; both steps can throw, inside the
    [try]. *)
Definition post (w : World) (this : LangflowClient) (endpoint : string)
    (body : JsVal) : Completion JsVal * list IO :=
  let url := to_string (baseURL this) +:+ endpoint in
  let req := {| url := url; method := "POST"; headers := this_headers this;
                body := body; timeout := 30000 |} in
  let attempt : Completion (Completion JsVal) :=
    match fetch w req with
    | Rejected cause => Throw cause
    | Responded response =>
        if negb (ok response) then
          let errorData :=
            match json response with
            | Return v => v
            | Throw _ => JObj []
            end in
          match member "message" errorData with
          | Throw e => Throw e
          | Return m =>
              match ToString (js_or m (JStr (statusText response))) with
              | Throw e => Throw e
              | Return text =>
                  Throw (Error ("HTTP " +:+ pretty (status response) +:+ ": "
                                +:+ text))
              end
          end
        else Return (json response)
    end in
  (match attempt with
   | Return promise => promise
   | Throw error => Throw (Error ("Request failed: " +:+ message error))
   end,
   [Fetch req]).

(** [initiateSession] (lines 37-48). *)
Definition initiateSession (w : World) (this : LangflowClient)
    (flowId langflowId inputValue inputType outputType stream tweaks : JsVal)
  : Completion JsVal * list IO :=
  let inputType := default_arg inputType (JStr "chat") in
  let outputType := default_arg outputType (JStr "chat") in
  let stream := default_arg stream (JBool false) in
  let tweaks := default_arg tweaks (JObj []) in
  if negb (truthy flowId) || negb (truthy langflowId)
     || negb (truthy inputValue)
  then (Throw (Error "Missing required parameters"), [])
  else
    let endpoint :=
      "/lf/" +:+ to_string langflowId +:+ "/api/v1/run/" +:+ to_string flowId
      +:+ "?stream=" +:+ to_string stream in
    post w this endpoint
      (JObj [("input_value", inputValue); ("input_type", inputType);
             ("output_type", outputType); ("tweaks", tweaks)]).

(** What [runFlow] resolves with: the upstream's response, or the
    connection that [handleStream] returned. *)
Inductive FlowResult : Type :=
| InitResponse (initResponse : JsVal)
| Handle (eventSource : Stream.EventSource).

(** [initResponse?.outputs?.[0]?.outputs?.[0]?.artifacts?.stream_url] *)
Definition stream_url_of (initResponse : JsVal) : JsVal :=
  opt (prop "stream_url")
    (opt (prop "artifacts")
       (opt index0 (opt (prop "outputs")
          (opt index0 (opt (prop "outputs") initResponse))))).

(** [runFlow] (lines 94-115), entered at host time [now]. *)
Definition runFlow (w : World) (this : LangflowClient) (now : Z)
    (flowIdOrName langflowId inputValue inputType outputType tweaks stream
       : JsVal)
    (callbacks : Stream.Callbacks)
  : Completion FlowResult * list IO :=
  let inputType := default_arg inputType (JStr "chat") in
  let outputType := default_arg outputType (JStr "chat") in
  let tweaks := default_arg tweaks (JObj []) in
  let stream := default_arg stream (JBool false) in
  let rethrow (error : JsError) : Completion FlowResult :=
    Throw (Error ("Flow execution failed: " +:+ message error)) in
  match initiateSession w this flowIdOrName langflowId inputValue inputType
          outputType stream tweaks with
  | (Throw error, io) => (rethrow error, io)
  | (Return initResponse, io) =>
      if truthy stream && truthy (stream_url_of initResponse) then
        let streamUrl := stream_url_of initResponse in
        match Stream.handleStream (EventSource_new w) now streamUrl
                callbacks with
        | Throw error => (rethrow error, io ++ [OpenStream streamUrl])
        | Return eventSource =>
            (Return (Handle eventSource), io ++ [OpenStream streamUrl])
        end
      else (Return (InitResponse initResponse), io)
  end.

End Client.

(** ** Result cache: the [node-cache] instance [insightsCache] *)

Module Cache.

(** An entry as [node-cache] keeps it: the value, and the time [t] (in
    milliseconds) after which it is dead, 0 meaning never. *)
Record Entry : Type := { v : JsVal; t : Z }.

Record NodeCache : Type := {
  stdTTL : Z;
  data : gmap string Entry
}.

(** [new NodeCache({ stdTTL: 3600 })] (line 120): seconds. *)
Definition insightsCache : NodeCache := {| stdTTL := 3600; data := ∅ |}.

(** The library's liveness check at [Date.now() = now]. *)
Definition alive (now : Z) (e : Entry) : bool :=
  negb (negb (t e =? 0) && (t e <? now)).

(** [cache.get(key)]: the value of a live entry, [undefined] otherwise; a
    dead entry is deleted on the way. *)
Definition get (now : Z) (key : string) (c : NodeCache) : JsVal * NodeCache :=
  match data c !! key with
  | Some e =>
      if alive now e then (v e, c)
      else (JUndefined, {| stdTTL := stdTTL c; data := delete key (data c) |})
  | None => (JUndefined, c)
  end.

(** [cache.set(key, value)] at [Date.now() = now], with the standard
    time to live. *)
Definition set (now : Z) (key : string) (value : JsVal) (c : NodeCache)
  : NodeCache :=
  let livetime := if stdTTL c =? 0 then 0 else now + stdTTL c * 1000 in
  {| stdTTL := stdTTL c;
     data := <[key := {| v := value; t := livetime |}]> (data c) |}.

End Cache.

(** ** Lookup with cache: [getInsights] *)

Module Insights.
Import Client.

Definition cacheKey (inputValue : JsVal) : string :=
  "insights-" +:+ to_string inputValue.

(** [response?.outputs?.[0]?.outputs?.[0]?.outputs?.message?.message?.text];
    a connection handle has no property [outputs]. *)
Definition text_of (response : FlowResult) : JsVal :=
  match response with
  | Handle _ => JUndefined
  | InitResponse r =>
      opt (prop "text")
        (opt (prop "message")
           (opt (prop "message")
              (opt (prop "outputs")
                 (opt index0
                    (opt (prop "outputs")
                       (opt index0 (opt (prop "outputs") r)))))))
  end.

Definition flowIdOrName : JsVal := JStr "5d664ca6-224d-4112-b143-d31786f9a046".
Definition langflowId : JsVal := JStr "aa552875-56d4-431d-94bd-389aa1c8d68f".

Definition tweaks : JsVal :=
  JObj [("Agent-C6mqP", JObj []); ("ChatInput-X4siD", JObj []);
        ("ChatOutput-XzlpZ", JObj []); ("URL-DITVH", JObj []);
        ("AstraDBCQLToolComponent-GXZ2B", JObj [])].

(** The three handlers that [getInsights] hands to [runFlow] (lines
    160-162); they write to the console, and the first reads
    [data.chunk]. *)
Definition console_callbacks : Stream.Callbacks :=
  {| Stream.onUpdate := fun data =>
       match member "chunk" data with
       | Throw e => Throw e
       | Return _ => Return tt
       end;
     Stream.onClose := fun _ => Return tt;
     Stream.onError := fun _ => Return tt |}.

(** [getInsights] (lines 122-176).  [now] is the host time at the cache
    lookup, [later] the host time once the upstream has answered.  The
    result comes with the cache as the call leaves it and with the
    network effects of the call. *)
Definition getInsights (w : World) (now later : Z)
    (inputValue inputType outputType stream : JsVal) (cache : Cache.NodeCache)
  : Completion JsVal * Cache.NodeCache * list IO :=
  let inputType := default_arg inputType (JStr "chat") in
  let outputType := default_arg outputType (JStr "chat") in
  let stream := default_arg stream (JBool false) in
  let cacheKey := cacheKey inputValue in
  let (cachedResult, cache) := Cache.get now cacheKey cache in
  if truthy cachedResult then (Return cachedResult, cache, [])
  else
    let applicationToken := MODEL_TOKEN w in
    if negb (truthy applicationToken) then
      (Throw (Error "MODEL_TOKEN environment variable is not set"), cache, [])
    else
      match new_LangflowClient (JStr "https://api.langflow.astra.datastax.com")
              applicationToken with
      | Throw e => (Throw e, cache, [])
      | Return langflowClient =>
          let rethrow (error : JsError) : Completion JsVal :=
            Throw (Error ("Failed to get insights: " +:+ message error)) in
          match runFlow w langflowClient later flowIdOrName langflowId
                  inputValue inputType outputType tweaks stream
                  console_callbacks with
          | (Throw error, io) => (rethrow error, cache, io)
          | (Return response, io) =>
              if negb (truthy stream) && truthy (text_of response) then
                let output := text_of response in
                (Return output, Cache.set later cacheKey output cache, io)
              else (rethrow (Error "Invalid response format"), cache, io)
          end
      end.

End Insights.

(** ** HTTP boundary: the [/insights/:keyword] route and the error handler *)

Module Gateway.
Import Client.

Record Reply : Type := { code : N; payload : JsVal }.

(** [fastify.httpErrors.createError(status, message)] *)
Definition createError (status : N) (msg : string) : JsError :=
  {| message := msg; statusCode := Some status |}.

(** The route handler (lines 226-235), on a request that passed the
    schema of the route. *)
Definition insights_handler (w : World) (now later : Z) (keyword : string)
    (cache : Cache.NodeCache)
  : Completion JsVal * Cache.NodeCache * list IO :=
  match Insights.getInsights w now later (JStr keyword)
          JUndefined JUndefined JUndefined cache with
  | (Return response, cache', io) =>
      (Return (JObj [("success", JBool true); ("data", response)]), cache', io)
  | (Throw error, cache', io) =>
      (Throw (createError 500 (message error)), cache', io)
  end.

(** [fastify.setErrorHandler] (lines 238-249): [error.statusCode || 500]. *)
Definition errorHandler (error : JsError) : Reply :=
  let statusCode :=
    match statusCode error with
    | None | Some 0%N => 500%N
    | Some n => n
    end in
  let response :=
    JObj [("success", JBool false);
          ("error",
           JStr (if (statusCode =? 500)%N then "Internal Server Error"
                 else message error))] in
  {| code := statusCode; payload := response |}.

(** What the client of the gateway receives for a request that reached
    the handler, that is, whose keyword passed the schema of the route
    (lines 217-225): the handler's value with status 200, or what the
    error handler makes of the error the handler threw.  A request that
    the framework turns down before the handler (an empty keyword, for
    one) gets the framework's error through [errorHandler] and is not
    a run of this function. *)
Definition GET_insights (w : World) (now later : Z) (keyword : string)
    (cache : Cache.NodeCache) : Reply * Cache.NodeCache * list IO :=
  match insights_handler w now later keyword cache with
  | (Return body, cache', io) =>
      ({| code := 200; payload := body |}, cache', io)
  | (Throw error, cache', io) => (errorHandler error, cache', io)
  end.

End Gateway.

Import Client Stream Insights Gateway.

(** ** Sample hosts and inputs *)

Definition nested_text (text : JsVal) : JsVal :=
  JObj [("outputs",
     JArr [JObj [("outputs",
        JArr [JObj [("outputs",
           JObj [("message",
              JObj [("message", JObj [("text", text)])])])]])]])].

Definition respond (st : N) (txt : string) (b : Completion JsVal) : World :=
  {| fetch := fun _ =>
       Responded {| status := st; statusText := txt; json := b |};
     EventSource_new := fun _ => Return tt;
     MODEL_TOKEN := JStr "secret" |}.

Definition unreachable (cause : string) : World :=
  {| fetch := fun _ => Rejected (Error cause);
     EventSource_new := fun _ => Return tt;
     MODEL_TOKEN := JStr "secret" |}.

Definition quiet : Callbacks :=
  {| onUpdate := fun _ => Return tt;
     onClose := fun _ => Return tt;
     onError := fun _ => Return tt |}.

(** The connection as [handleStream] returns it at host time [now]. *)
Definition attached (cb : Callbacks) (now : Z) : EventSource :=
  snd (resetHeartbeat now (connecting (JStr "https://stream") cb)).

Definition a_client : LangflowClient :=
  {| baseURL := JStr "https://api.langflow.astra.datastax.com";
     applicationToken := JStr "secret";
     this_headers := [("Authorization", "Bearer secret");
                      ("Content-Type", "application/json")] |}.

(** ** Vocabulary of the properties *)

(** An argument that is missing ([undefined]) or the empty string. *)
Definition missing_or_empty (x : JsVal) : Prop := x = JUndefined \/ x = JStr "".

(** The idle-timeout guard of a connection: at most one timer is
    pending, and it is the one the variable [heartbeatTimeout] names. *)
Definition guard_inv (s : EventSource) : Prop :=
  match timers s with
  | [] => True
  | [(id, _)] => heartbeatTimeout s = Some id
  | _ => False
  end.

(** The states of a connection: as [handleStream] returns it, and after
    each turn of the host's loop. *)
Inductive consumer_state : EventSource -> Prop :=
| consumer_attached (ctor : JsVal -> Completion unit) (now : Z)
    (streamUrl : JsVal) (cb : Callbacks) (s : EventSource) :
    handleStream ctor now streamUrl cb = Return s -> consumer_state s
| consumer_turn (now : Z) (i : Input) (s : EventSource) :
    consumer_state s -> consumer_state (deliver now i s).

(** The effects of the idle timeout firing, in order. *)
Definition timeout_effects : list Effect :=
  [Warn "Stream timeout - no data received"; EsClose;
   CallError (ErrObject (Error "Stream timeout"))].

(** The states of the cache: as created, and as any call of
    [getInsights] leaves it. *)
Inductive cache_state : Cache.NodeCache -> Prop :=
| cache_created : cache_state Cache.insightsCache
| cache_after_call (w : World) (now later : Z)
    (inputValue inputType outputType stream : JsVal) (c : Cache.NodeCache) :
    cache_state c ->
    cache_state
      (snd (fst (getInsights w now later inputValue inputType outputType
                   stream c))).

(** The call of [runFlow] that [getInsights] makes on a miss (lines
    138-163), when the credential is configured. *)
Definition orchestration (w : World) (later : Z)
    (inputValue inputType outputType stream : JsVal)
  : option (Completion FlowResult * list IO) :=
  match new_LangflowClient (JStr "https://api.langflow.astra.datastax.com")
          (MODEL_TOKEN w) with
  | Throw _ => None
  | Return langflowClient =>
      Some (runFlow w langflowClient later flowIdOrName langflowId inputValue
              (default_arg inputType (JStr "chat"))
              (default_arg outputType (JStr "chat"))
              tweaks
              (default_arg stream (JBool false))
              console_callbacks)
  end.

(** The error of a response without usable text, as [getInsights]
    rethrows it. *)
Definition invalid_response_format : JsError :=
  Error "Failed to get insights: Invalid response format".

(** One hour, in the milliseconds of [Date.now()]. *)
Definition ONE_HOUR_MS : Z := 3600 * 1000.

(** The reply of the gateway that says nothing about the error. *)
Definition internal_server_error : Reply :=
  {| code := 500;
     payload := JObj [("success", JBool false);
                      ("error", JStr "Internal Server Error")] |}.

(** What holds of the cache at all times: the time to live is the hour
    it was created with, and every stored value is truthy and carries a
    deadline. *)
Definition cache_inv (c : Cache.NodeCache) : Prop :=
  Cache.stdTTL c = 3600
  /\ forall k e, Cache.data c !! k = Some e -> truthy (Cache.v e) = true.

(** ** Sample cache states *)

(** An upstream that answers every request with the text [hello], and
    the cache after one lookup of the keyword [rust] against it, entered
    at time 0 and answered at time 5. *)
Definition hello_upstream : World :=
  respond 200 "OK" (Return (nested_text (JStr "hello"))).

Definition rust_cached : Cache.NodeCache :=
  snd (fst (getInsights hello_upstream 0 5 (JStr "rust") JUndefined JUndefined
              JUndefined Cache.insightsCache)).

(** A cache that holds the empty string under the key of [rust]. *)
Definition falsy_cached : Cache.NodeCache :=
  {| Cache.stdTTL := 3600;
     Cache.data :=
       {[ "insights-rust" := {| Cache.v := JStr ""; Cache.t := 0 |} ]} |}.

(** The handler invocations among the effects, and the updates among
    those. *)
Definition is_call (e : Effect) : bool :=
  match e with
  | CallUpdate _ | CallClose _ | CallError _ => true
  | _ => false
  end.

Definition is_update (e : Effect) : bool :=
  match e with
  | CallUpdate _ => true
  | _ => false
  end.

Definition calls (l : list Effect) : list Effect := List.filter is_call l.
Definition updates (l : list Effect) : list Effect := List.filter is_update l.

(** Handlers whose [onError] and [onClose] return normally. *)
Definition well_behaved (cb : Callbacks) : Prop :=
  (forall arg, onError cb arg = Return tt)
  /\ (forall msg, onClose cb msg = Return tt).

(** The string [s] begins with [p]. *)
Definition starts_with (p s : string) : Prop := exists rest, s = p +:+ rest.

(** The requests among the effects of a call. *)
Definition is_fetch (e : IO) : bool :=
  match e with
  | Fetch _ => true
  | OpenStream _ => false
  end.

(** Messages that each arrive before the guard, as the previous one left
    it, is due: [due] is the due time of the guard when the first
    arrives. *)
Fixpoint steady (due : Z) (messages : list (Z * JsVal)) : Prop :=
  match messages with
  | [] => True
  | (now, _) :: rest => now < due /\ steady (now + 30000) rest
  end.

(** The inputs of the host for a list of timed, well-formed messages. *)
Definition as_inputs (messages : list (Z * JsVal)) : list (Z * Input) :=
  List.map (fun m => (fst m, Message (Return (snd m)))) messages.

(** Handlers whose [onError] throws. *)
Definition throwing_onError : Callbacks :=
  {| onUpdate := fun _ => Return tt;
     onClose := fun _ => Return tt;
     onError := fun _ => Throw (Error "handler failed") |}.

(** A call of [getInsights]: the host it meets, its two clock readings
    and its arguments. *)
Record Call : Type := {
  call_world : World;
  call_now : Z;
  call_later : Z;
  call_inputValue : JsVal;
  call_inputType : JsVal;
  call_outputType : JsVal;
  call_stream : JsVal
}.

(** The cache after calls that run one after another, each to its end
    before the next begins. *)
Definition cache_after (k : Call) (c : Cache.NodeCache) : Cache.NodeCache :=
  snd (fst (getInsights (call_world k) (call_now k) (call_later k)
              (call_inputValue k) (call_inputType k) (call_outputType k)
              (call_stream k) c)).

Definition cache_after_calls (calls : list Call) (c : Cache.NodeCache)
  : Cache.NodeCache :=
  List.fold_left (fun acc k => cache_after k acc) calls c.

(** * Properties *)

(** ** Request client *)

Section RequestClient.

Variables (w : World) (this : LangflowClient).
Variables (flowId langflowId inputValue inputType outputType stream tweaks
             : JsVal).

Lemma post_issues_one_request endpoint body :
  exists req, snd (post w this endpoint body) = [Fetch req]
              /\ url req = to_string (baseURL this) +:+ endpoint.
Proof. eexists. split; reflexivity. Qed.

Lemma initiateSession_guard :
  truthy flowId && truthy langflowId && truthy inputValue = false ->
  initiateSession w this flowId langflowId inputValue inputType outputType
    stream tweaks
  = (Throw (Error "Missing required parameters"), []).
Proof.
  intros H. unfold initiateSession.
  destruct (truthy flowId), (truthy langflowId), (truthy inputValue);
    simpl in *; congruence.
Qed.

End RequestClient.

Lemma missing_or_empty_falsy x : missing_or_empty x -> truthy x = false.
Proof. intros [-> | ->]; reflexivity. Qed.

(** C6.  Whenever [flowId], [langflowId] (the flow group) or [inputValue]
    is missing or the empty string, [initiateSession] rejects with the
    error [Missing required parameters] and its list of network effects
    is empty: the failure comes before any request, whatever the host. *)
Theorem initiateSession_rejects_missing_arguments :
  forall (w : World) (this : LangflowClient)
         (flowId langflowId inputValue inputType outputType stream tweaks
            : JsVal),
    missing_or_empty flowId \/ missing_or_empty langflowId
    \/ missing_or_empty inputValue ->
    initiateSession w this flowId langflowId inputValue inputType outputType
      stream tweaks
    = (Throw (Error "Missing required parameters"), []).
Proof.
  intros w this flowId langflowId inputValue inputType outputType stream
    tweaks H.
  apply initiateSession_guard.
  destruct H as [H | [H | H]]; apply missing_or_empty_falsy in H; rewrite H.
  - reflexivity.
  - now rewrite andb_false_r.
  - now rewrite andb_false_r.
Qed.

Lemma initiateSession_rejects_missing_arguments_witness :
  missing_or_empty (JStr "")
  /\ initiateSession (respond 200 "OK" (Return JNull)) a_client
       (JStr "flow") (JStr "") (JStr "rust") JUndefined JUndefined
       JUndefined JUndefined
     = (Throw (Error "Missing required parameters"), []).
Proof.
  split.
  - right. reflexivity.
  - apply initiateSession_rejects_missing_arguments.
    right. left. right. reflexivity.
Defined.

(** The failures of the post path, case by case.  When the three
    required arguments are present, [initiateSession] issues exactly one
    request, and
    - if [fetch] rejects, it rejects with a plain [Error] whose message is
      the cause's message behind the prefix [Request failed: ];
    - if [fetch] resolves with a non-success status, and reading and
      converting the body's [message] does not throw, it rejects with a
      plain [Error] whose message is [Request failed: HTTP <status>: <m>],
      where [m] is the body's [message] when the body is JSON and that
      property is truthy, and the status text otherwise (in particular
      when the body is not JSON). *)
Lemma initiateSession_failure_messages :
  forall (w : World) (this : LangflowClient)
         (flowId langflowId inputValue inputType outputType stream tweaks
            : JsVal),
    truthy flowId = true -> truthy langflowId = true ->
    truthy inputValue = true ->
    exists req,
      snd (initiateSession w this flowId langflowId inputValue inputType
             outputType stream tweaks) = [Fetch req]
      /\ match fetch w req with
         | Rejected cause =>
             fst (initiateSession w this flowId langflowId inputValue
                    inputType outputType stream tweaks)
             = Throw (Error ("Request failed: " +:+ message cause))
         | Responded r =>
             ok r = false ->
             match json r with
             | Throw _ =>
                 fst (initiateSession w this flowId langflowId inputValue
                        inputType outputType stream tweaks)
                 = Throw (Error ("Request failed: HTTP " +:+ pretty (status r)
                                 +:+ ": " +:+ statusText r))
             | Return JNull | Return JUndefined => True
             | Return errorData =>
                 converts (js_or (prop "message" errorData)
                             (JStr (statusText r))) = true ->
                 fst (initiateSession w this flowId langflowId inputValue
                        inputType outputType stream tweaks)
                 = Throw (Error ("Request failed: HTTP " +:+ pretty (status r)
                                 +:+ ": "
                                 +:+ to_string (js_or (prop "message" errorData)
                                                  (JStr (statusText r)))))
             end
         end.
Proof.
  intros w this flowId langflowId inputValue inputType outputType stream
    tweaks Hf Hl Hi.
  unfold initiateSession. rewrite Hf, Hl, Hi. cbn [negb orb].
  unfold post. eexists. split; [reflexivity|].
  cbn [fst].
  match goal with
  | |- context [fetch w ?r] => destruct (fetch w r) as [cause | r']
  end.
  - reflexivity.
  - intros Hok. rewrite Hok. cbn [negb].
    destruct (json r') as [[]|e]; try exact I; try reflexivity;
      intros Hc; cbn [member]; unfold ToString; rewrite Hc; reflexivity.
Qed.

(** C1, at a body that is the JSON literal [null].  The upstream answers
    with status 500 and the body [null].  Reading [errorData.message]
    throws inside the [try], and the [catch] wraps that [TypeError]:
    the rejection carries neither the status code nor the status text,
    and reads like a transport failure.  With the body [{}], or a body
    that is not JSON, the same status does give
    [HTTP 500: Internal Server Error]: the fallback is there and misses
    this case.  A body whose [message] has no primitive form (an object
    with an own [toString]) ends the same way, at the conversion. *)
Theorem non_success_null_body_loses_status_code :
  fst (initiateSession
         (respond 500 "Internal Server Error" (Return JNull))
         a_client (JStr "flow") (JStr "group") (JStr "rust") JUndefined
         JUndefined JUndefined JUndefined)
  = Throw (Error "Request failed: Cannot read properties of null (reading 'message')")
  /\ fst (initiateSession
            (respond 500 "Internal Server Error" (Return (JObj [])))
            a_client (JStr "flow") (JStr "group") (JStr "rust") JUndefined
            JUndefined JUndefined JUndefined)
     = Throw (Error "Request failed: HTTP 500: Internal Server Error")
  /\ fst (initiateSession
            (respond 500 "Internal Server Error"
               (Throw (Error "Unexpected token <")))
            a_client (JStr "flow") (JStr "group") (JStr "rust") JUndefined
            JUndefined JUndefined JUndefined)
     = Throw (Error "Request failed: HTTP 500: Internal Server Error")
  /\ fst (initiateSession
            (respond 500 "Internal Server Error"
               (Return (JObj [("message", JObj [("toString", JNum "1")])])))
            a_client (JStr "flow") (JStr "group") (JStr "rust") JUndefined
            JUndefined JUndefined JUndefined)
     = Throw (Error "Request failed: Cannot convert object to primitive value").
Proof. repeat split. Qed.

(** ** Stream consumer *)

Ltac unfold_handlers :=
  unfold onmessage, onerror, onclose, heartbeat_expired, resetHeartbeat,
    call_onUpdate, call_onClose, call_onError, try_catch, lift, emit,
    es_close, setTimeout, clearTimeout, get_heartbeatTimeout,
    set_heartbeatTimeout, run_handler, mbind, mret, M_bind, M_ret in *.

Ltac case_callback :=
  match goal with
  | |- context [onUpdate ?cb ?a] => destruct (onUpdate cb a)
  | |- context [onError ?cb ?a] => destruct (onError cb a)
  | |- context [onClose ?cb ?a] => destruct (onClose cb a)
  end; cbn.

Lemma filter_none {A} (f : A -> bool) (l : list A) :
  (forall x, In x l -> f x = false) -> List.filter f l = [].
Proof.
  induction l as [|a l IH]; intros H; cbn; [reflexivity|].
  rewrite (H a (or_introl eq_refl)). apply IH.
  intros x Hx. apply H. now right.
Qed.

Lemma filter_all {A} (f : A -> bool) (l : list A) :
  (forall x, In x l -> f x = true) -> List.filter f l = l.
Proof.
  induction l as [|a l IH]; intros H; cbn; [reflexivity|].
  rewrite (H a (or_introl eq_refl)). f_equal. apply IH.
  intros x Hx. apply H. now right.
Qed.

Section StreamConsumer.

Variable cb : Callbacks.

Lemma resetHeartbeat_arms now s :
  guard_inv s ->
  fst (resetHeartbeat now s) = Return tt
  /\ timers (snd (resetHeartbeat now s)) = [(next_timer s, now + HEARTBEAT_MS)]
  /\ heartbeatTimeout (snd (resetHeartbeat now s)) = Some (next_timer s)
  /\ closed (snd (resetHeartbeat now s)) = closed s.
Proof.
  unfold guard_inv. intros H. unfold_handlers.
  destruct s as [u hs c h ts n l]; cbn in *.
  destruct ts as [|[id due] [|t ts]]; [| |contradiction].
  - destruct h; cbn; auto.
  - subst h. cbn. rewrite Nat.eqb_refl. cbn. auto.
Qed.

(** Whatever a message carries and whatever the handlers do, handling it
    leaves exactly one pending timer, due one window after the message. *)
Lemma onmessage_rearms now parsed s :
  guard_inv s ->
  timers (run_handler (onmessage cb now parsed) s)
  = [(next_timer s, now + HEARTBEAT_MS)]
  /\ heartbeatTimeout (run_handler (onmessage cb now parsed) s)
     = Some (next_timer s).
Proof.
  unfold guard_inv. intros H.
  destruct s as [u hs c h ts n l]; cbn in H.
  destruct ts as [|[id due] [|t ts]]; [| |contradiction].
  - unfold_handlers. destruct h; cbn;
      (destruct parsed as [data|e]; cbn; repeat case_callback; auto).
  - subst h. unfold_handlers. cbn. rewrite Nat.eqb_refl. cbn.
    destruct parsed as [data|e]; cbn; repeat case_callback; auto.
Qed.

Lemma heartbeat_expired_effects s :
  closed (run_handler (heartbeat_expired cb) s) = true
  /\ timers (run_handler (heartbeat_expired cb) s) = timers s
  /\ heartbeatTimeout (run_handler (heartbeat_expired cb) s)
     = heartbeatTimeout s
  /\ exists rest,
      log (run_handler (heartbeat_expired cb) s)
      = log s ++ timeout_effects ++ rest.
Proof.
  unfold_handlers. cbn.
  case_callback; repeat split.
  - exists []. now rewrite <- !app_assoc.
  - exists [Uncaught e]. now rewrite <- !app_assoc.
Qed.

End StreamConsumer.

(** Before its due time the guard does nothing. *)
Lemma fire_due_early now s :
  (forall t, In t (timers s) -> now < snd t) -> fire_due now s = s.
Proof.
  intros H. unfold fire_due.
  assert (Hnone : List.filter (is_due now) (timers s) = []).
  { apply filter_none. intros x Hx. unfold is_due.
    apply H in Hx. apply Z.leb_gt. exact Hx. }
  assert (Hall : List.filter (fun t => negb (is_due now t)) (timers s)
                 = timers s).
  { apply filter_all. intros x Hx. unfold is_due. apply H in Hx.
    apply negb_true_iff, Z.leb_gt. exact Hx. }
  rewrite Hnone, Hall. destruct s; reflexivity.
Qed.

(** At or after its due time the guard fires: the connection is closed
    and [onError] receives the timeout error. *)
Lemma fire_due_fires now id due s :
  timers s = [(id, due)] -> due <= now ->
  closed (fire_due now s) = true
  /\ timers (fire_due now s) = []
  /\ heartbeatTimeout (fire_due now s) = heartbeatTimeout s
  /\ exists rest, log (fire_due now s) = log s ++ timeout_effects ++ rest.
Proof.
  intros Ht Hdue. unfold fire_due. rewrite Ht. cbn [List.filter].
  unfold is_due. cbn [snd].
  apply Z.leb_le in Hdue. rewrite Hdue. cbn [negb List.fold_left].
  match goal with
  | |- context [run_handler (heartbeat_expired ?cb0) ?s0] =>
      destruct (heartbeat_expired_effects cb0 s0) as (Hc & Htm & Hh & rest & Hl)
  end.
  cbn in Htm, Hh, Hl. split; [exact Hc|]. split; [exact Htm|].
  split; [exact Hh|]. exists rest. exact Hl.
Qed.

Section MessageHandler.

Variable cb : Callbacks.

(** The message handler, case by case.  The effects of a message are
    those of [resetHeartbeat] followed by the calls below. *)
Lemma onmessage_parsed now data s :
  onUpdate cb data = Return tt ->
  log (run_handler (onmessage cb now (Return data)) s)
  = log (snd (resetHeartbeat now s)) ++ [CallUpdate data]
  /\ closed (run_handler (onmessage cb now (Return data)) s) = closed s.
Proof.
  intros H. destruct s as [u hs c h ts n l]. unfold_handlers.
  destruct h; cbn; rewrite H; cbn; auto.
Qed.

Lemma onmessage_malformed now e s :
  onError cb (ErrObject (Error ("Failed to parse stream data: " +:+ message e)))
  = Return tt ->
  log (run_handler (onmessage cb now (Throw e)) s)
  = log (snd (resetHeartbeat now s))
    ++ [CallError (ErrObject (Error ("Failed to parse stream data: "
                                     +:+ message e)));
        EsClose]
  /\ closed (run_handler (onmessage cb now (Throw e)) s) = true.
Proof.
  intros H. destruct s as [u hs c h ts n l]. unfold_handlers.
  destruct h; cbn; rewrite H; cbn; rewrite <- !app_assoc; auto.
Qed.

(** An exception of [onUpdate] lands in the same [catch]. *)
Lemma onmessage_consumer_throws now data e s :
  onUpdate cb data = Throw e ->
  onError cb (ErrObject (Error ("Failed to parse stream data: " +:+ message e)))
  = Return tt ->
  log (run_handler (onmessage cb now (Return data)) s)
  = log (snd (resetHeartbeat now s))
    ++ [CallUpdate data;
        CallError (ErrObject (Error ("Failed to parse stream data: "
                                     +:+ message e)));
        EsClose]
  /\ closed (run_handler (onmessage cb now (Return data)) s) = true.
Proof.
  intros Hu He. destruct s as [u hs c h ts n l]. unfold_handlers.
  destruct h; cbn; rewrite Hu; cbn; rewrite He; cbn;
    rewrite <- !app_assoc; auto.
Qed.

(** The transport-error handler and the close listener cancel the
    guard before anything else. *)
Lemma onerror_cancels_guard event s :
  guard_inv s -> timers (run_handler (onerror cb event) s) = [].
Proof.
  unfold guard_inv. intros H.
  destruct s as [u hs c h ts n l]; cbn in H.
  destruct ts as [|[id due] [|t ts]]; [| |contradiction].
  - unfold_handlers. destruct h; cbn; repeat case_callback; auto.
  - subst h. unfold_handlers. cbn. rewrite Nat.eqb_refl. cbn.
    repeat case_callback; auto.
Qed.

Lemma onclose_cancels_guard s :
  guard_inv s -> timers (run_handler (onclose cb) s) = [].
Proof.
  unfold guard_inv. intros H.
  destruct s as [u hs c h ts n l]; cbn in H.
  destruct ts as [|[id due] [|t ts]]; [| |contradiction].
  - unfold_handlers. destruct h; cbn; repeat case_callback; auto.
  - subst h. unfold_handlers. cbn. rewrite Nat.eqb_refl. cbn.
    repeat case_callback; auto.
Qed.

End MessageHandler.

Lemma guard_inv_cases s :
  guard_inv s ->
  timers s = []
  \/ exists id due, timers s = [(id, due)] /\ heartbeatTimeout s = Some id.
Proof.
  unfold guard_inv. destruct (timers s) as [|[id due] [|t ts]]; intros H.
  - now left.
  - right. eauto.
  - contradiction.
Qed.

Lemma guard_inv_no_timer s : timers s = [] -> guard_inv s.
Proof. unfold guard_inv. now intros ->. Qed.

Lemma fire_due_guard_inv now s : guard_inv s -> guard_inv (fire_due now s).
Proof.
  intros H. destruct (guard_inv_cases s H) as [Ht | (id & due & Ht & Hh)].
  - rewrite fire_due_early; [exact H|]. rewrite Ht. intros t [].
  - destruct (Z.le_gt_cases due now) as [Hle | Hgt].
    + destruct (fire_due_fires now id due s Ht Hle) as (_ & Ht' & _).
      now apply guard_inv_no_timer.
    + rewrite fire_due_early; [exact H|]. rewrite Ht.
      intros t [<- | []]. cbn. lia.
Qed.

Lemma deliver_guard_inv now i s : guard_inv s -> guard_inv (deliver now i s).
Proof.
  intros H. apply (fire_due_guard_inv now) in H. unfold deliver.
  cbv zeta. set (s1 := fire_due now s) in *.
  destruct i as [parsed | event | | |].
  - destruct (closed s1); [exact H|].
    destruct (onmessage_rearms (handlers s) now parsed s1 H) as [Ht Hh].
    unfold guard_inv. now rewrite Ht.
  - destruct (closed s1); [exact H|].
    apply guard_inv_no_timer. now apply onerror_cancels_guard.
  - destruct (closed s1); [exact H|].
    apply guard_inv_no_timer. now apply onclose_cancels_guard.
  - destruct s1. exact H.
  - exact H.
Qed.

Lemma handleStream_returns ctor now streamUrl cb s :
  handleStream ctor now streamUrl cb = Return s ->
  s = snd (resetHeartbeat now (connecting streamUrl cb)).
Proof.
  unfold handleStream.
  destruct (truthy streamUrl); cbn [negb]; [|discriminate].
  destruct (ctor streamUrl); [|discriminate].
  now intros [= <-].
Qed.

Lemma consumer_state_guard_inv s : consumer_state s -> guard_inv s.
Proof.
  induction 1 as [ctor now streamUrl cb s H | now i s _ IH].
  - apply handleStream_returns in H. subst s. reflexivity.
  - now apply deliver_guard_inv.
Qed.

(** C8.  The guard is armed by [handleStream] one window (30000 ms)
    after the connection is opened.  In every state of a connection: a
    message that is handled (the connection is open and the guard has not
    come due) leaves exactly one pending timer, due 30000 ms after that
    message, whatever was pending before; a pending guard does nothing
    before it is due; and once it is due, the next turn of the host's
    loop closes the connection and calls [onError] with the error
    [Stream timeout]. *)
Theorem idle_timeout_window :
  forall (s : EventSource) (now : Z),
    consumer_state s ->
    HEARTBEAT_MS = 30000
    /\ (forall ctor streamUrl cb es,
           handleStream ctor now streamUrl cb = Return es ->
           timers es = [(1%nat, now + 30000)] /\ closed es = false)
    /\ (forall parsed,
           closed s = false ->
           (forall t, In t (timers s) -> now < snd t) ->
           exists id,
             timers (deliver now (Message parsed) s) = [(id, now + 30000)])
    /\ (forall id due,
           timers s = [(id, due)] -> now < due -> fire_due now s = s)
    /\ (forall id due i,
           timers s = [(id, due)] -> due <= now ->
           closed (deliver now i s) = true
           /\ exists rest,
               log (deliver now i s) = log s ++ timeout_effects ++ rest).
Proof.
  intros s now Hs. apply consumer_state_guard_inv in Hs.
  split; [reflexivity|]. split; [|split; [|split]].
  - intros ctor streamUrl cb es H.
    apply handleStream_returns in H. subst es. split; reflexivity.
  - intros parsed Hopen Hearly. unfold deliver.
    rewrite (fire_due_early now s Hearly), Hopen.
    exists (next_timer s).
    apply (onmessage_rearms (handlers s) now parsed s Hs).
  - intros id due Ht Hlt. apply fire_due_early. rewrite Ht.
    intros t [<- | []]. exact Hlt.
  - intros id due i Ht Hdue.
    destruct (fire_due_fires now id due s Ht Hdue)
      as (Hc & _ & _ & rest & Hl).
    unfold deliver. set (s1 := fire_due now s) in *.
    destruct i as [parsed | event | | |]; rewrite ?Hc; eauto.
    split; [reflexivity|].
    exists (rest ++ [EsClose]). cbn. rewrite Hl. now rewrite <- !app_assoc.
Qed.

Lemma idle_timeout_window_witness :
  consumer_state (attached quiet 0)
  /\ closed (deliver 30000 Idle (attached quiet 0)) = true.
Proof.
  assert (Hs : consumer_state (attached quiet 0)).
  { exact (consumer_attached (fun _ => Return tt) 0 (JStr "https://stream")
             quiet (attached quiet 0) eq_refl). }
  split; [exact Hs|].
  destruct (idle_timeout_window (attached quiet 0) 30000 Hs)
    as (_ & _ & _ & _ & H).
  exact (proj1 (H 1%nat 30000 Idle eq_refl (Z.le_refl 30000))).
Defined.

(** C3, at a malformed event.  A connection is attached at time 0 and
    receives, at time 1000, one message that is not JSON; nothing else
    arrives.  The handler reports the parse failure and closes the
    connection, yet the timer it armed on entry is still pending, and at
    time 31000 that timer fires: [close()] is called a second time and
    [onError] receives [Stream timeout] after the closure.  The transport
    error handler and the close listener do cancel the timer
    ([onerror_cancels_guard], [onclose_cancels_guard]). *)
Theorem malformed_event_leaves_guard_armed :
  let s1 := deliver 1000 (Message (Throw (Error "Unexpected token <")))
              (attached quiet 0) in
  let s2 := deliver 31000 Idle s1 in
  closed s1 = true
  /\ timers s1 = [(2%nat, 31000)]
  /\ log s1
     = [SetTimeout 1 30000; ClearTimeout 1; SetTimeout 2 31000;
        CallError (ErrObject (Error "Failed to parse stream data: Unexpected token <"));
        EsClose]
  /\ log s2
     = log s1 ++ [Warn "Stream timeout - no data received"; EsClose;
                  CallError (ErrObject (Error "Stream timeout"))].
Proof. cbv zeta. repeat split. Qed.

(** C2, at the handlers of [getInsights].  The payload is the JSON text
    [null]: it parses, [onUpdate] is called with the parsed value and
    throws a [TypeError] on reading [data.chunk].  The exception does not
    leave the message handler: the [catch] meant for the parse failure
    takes it, [onError] is called with a [Failed to parse stream data]
    error and the connection is closed; the host sees no uncaught
    exception.  The same happens with any handler that throws
    ([onmessage_consumer_throws]). *)
Theorem onUpdate_exception_reported_as_parse_failure :
  let s := deliver 1000 (Message (Return JNull))
             (attached console_callbacks 0) in
  onUpdate console_callbacks JNull
  = Throw (Error "Cannot read properties of null (reading 'chunk')")
  /\ closed s = true
  /\ log s
     = [SetTimeout 1 30000; ClearTimeout 1; SetTimeout 2 31000;
        CallUpdate JNull;
        CallError (ErrObject (Error "Failed to parse stream data: Cannot read properties of null (reading 'chunk')"));
        EsClose].
Proof. cbv zeta. repeat split. Qed.

(** ** Cache and lookup *)

Lemma default_arg_idem x d : default_arg (default_arg x d) d = default_arg x d.
Proof. destruct x; try reflexivity. destruct d; reflexivity. Qed.

Lemma truthy_default_stream stream :
  truthy (default_arg stream (JBool false)) = truthy stream.
Proof. destruct stream; reflexivity. Qed.

Section Lookup.

Variables (w : World) (now later : Z).
Variables (inputValue inputType outputType stream : JsVal).
Variable c : Cache.NodeCache.

(** A hit: the lookup is truthy and is the answer; nothing else happens. *)
Lemma getInsights_hit :
  truthy (fst (Cache.get now (cacheKey inputValue) c)) = true ->
  getInsights w now later inputValue inputType outputType stream c
  = (Return (fst (Cache.get now (cacheKey inputValue) c)),
     snd (Cache.get now (cacheKey inputValue) c), []).
Proof.
  unfold getInsights. intros H.
  destruct (Cache.get now (cacheKey inputValue) c) as [cachedResult c0].
  cbn [fst snd] in *. now rewrite H.
Qed.

(** A miss without a credential. *)
Lemma getInsights_no_credential :
  truthy (fst (Cache.get now (cacheKey inputValue) c)) = false ->
  truthy (MODEL_TOKEN w) = false ->
  getInsights w now later inputValue inputType outputType stream c
  = (Throw (Error "MODEL_TOKEN environment variable is not set"),
     snd (Cache.get now (cacheKey inputValue) c), []).
Proof.
  unfold getInsights. intros H Ht.
  destruct (Cache.get now (cacheKey inputValue) c) as [cachedResult c0].
  cbn [fst snd] in *. now rewrite H, Ht.
Qed.

(** A miss with a credential: the outcome of the orchestration decides. *)
Lemma getInsights_miss res io :
  truthy (fst (Cache.get now (cacheKey inputValue) c)) = false ->
  orchestration w later inputValue inputType outputType stream
  = Some (res, io) ->
  getInsights w now later inputValue inputType outputType stream c
  = match res with
    | Throw error =>
        (Throw (Error ("Failed to get insights: " +:+ message error)),
         snd (Cache.get now (cacheKey inputValue) c), io)
    | Return response =>
        if negb (truthy stream) && truthy (text_of response) then
          (Return (text_of response),
           Cache.set later (cacheKey inputValue) (text_of response)
             (snd (Cache.get now (cacheKey inputValue) c)),
           io)
        else
          (Throw invalid_response_format,
           snd (Cache.get now (cacheKey inputValue) c), io)
    end.
Proof.
  unfold getInsights, orchestration. intros H Ho.
  destruct (Cache.get now (cacheKey inputValue) c) as [cachedResult c0].
  cbn [fst snd] in *. rewrite H.
  unfold new_LangflowClient in *. cbn [truthy negb orb String.eqb] in *.
  destruct (truthy (MODEL_TOKEN w)); cbn [negb] in *; [|discriminate].
  injection Ho as Ho. rewrite Ho. rewrite truthy_default_stream.
  destruct res as [response|error]; reflexivity.
Qed.

End Lookup.

(** What a call can do to the cache: drop a dead entry on lookup, and
    store a truthy value under the key. *)
Lemma getInsights_cache w now later inputValue inputType outputType stream c :
  let c0 := snd (Cache.get now (cacheKey inputValue) c) in
  let c' := snd (fst (getInsights w now later inputValue inputType outputType
                        stream c)) in
  c' = c0
  \/ exists output,
       truthy output = true
       /\ c' = Cache.set later (cacheKey inputValue) output c0.
Proof.
  cbv zeta.
  destruct (truthy (fst (Cache.get now (cacheKey inputValue) c))) eqn:Hhit.
  - rewrite getInsights_hit by exact Hhit. now left.
  - destruct (truthy (MODEL_TOKEN w)) eqn:Htok.
    + destruct (orchestration w later inputValue inputType outputType stream)
        as [[res io]|] eqn:Ho.
      * rewrite (getInsights_miss _ _ _ _ _ _ _ _ res io Hhit Ho).
        destruct res as [response|error]; [|now left].
        destruct (negb (truthy stream) && truthy (text_of response)) eqn:Hg;
          [|now left].
        right. exists (text_of response). split; [|reflexivity].
        now apply andb_true_iff in Hg.
      * unfold orchestration, new_LangflowClient in Ho.
        rewrite Htok in Ho. discriminate.
    + rewrite getInsights_no_credential by assumption. now left.
Qed.

Lemma cache_get_inv now k c :
  cache_inv c -> cache_inv (snd (Cache.get now k c)).
Proof.
  intros [Httl Hv]. unfold Cache.get.
  destruct (Cache.data c !! k) as [e|] eqn:He; [|now split].
  destruct (Cache.alive now e); [now split|].
  split; [exact Httl|]. cbn. intros k' e' H.
  apply lookup_delete_Some in H as [_ H]. eauto.
Qed.

Lemma cache_set_inv now k output c :
  truthy output = true -> cache_inv c -> cache_inv (Cache.set now k output c).
Proof.
  intros Ho [Httl Hv]. split; [exact Httl|]. cbn. intros k' e' H.
  apply lookup_insert_Some in H as [[_ <-] | [_ H]]; eauto.
Qed.

Lemma cache_state_inv c : cache_state c -> cache_inv c.
Proof.
  induction 1 as [|w now later kw it ot stream c _ IH].
  - split; [reflexivity|]. intros k e H. cbn in H.
    rewrite lookup_empty in H. discriminate.
  - destruct (getInsights_cache w now later kw it ot stream c)
      as [-> | (o & Ho & ->)].
    + now apply cache_get_inv.
    + now apply cache_set_inv, cache_get_inv.
Qed.

Lemma truthy_not_empty_string x : truthy x = true -> x <> JStr "".
Proof. intros H ->. discriminate. Qed.

(** A live entry answers the lookup. *)
Lemma cache_get_alive now k c e :
  Cache.data c !! k = Some e -> Cache.alive now e = true ->
  Cache.get now k c = (Cache.v e, c).
Proof. intros He Ha. unfold Cache.get. now rewrite He, Ha. Qed.

Lemma cache_get_set later k output c t' :
  Cache.stdTTL c = 3600 -> 0 <= later ->
  fst (Cache.get t' k (Cache.set later k output c))
  = if t' <=? later + ONE_HOUR_MS then output else JUndefined.
Proof.
  intros Httl Hl. unfold Cache.get, Cache.set. cbn [Cache.data Cache.stdTTL].
  rewrite lookup_insert_eq, Httl. cbn [Z.eqb].
  unfold Cache.alive, ONE_HOUR_MS. cbn [Cache.t Cache.v].
  destruct (Z.eqb_spec (later + 3600 * 1000) 0) as [E|_]; [lia|].
  cbn [negb andb].
  destruct (Z.leb_spec t' (later + 3600 * 1000)) as [H|H].
  - apply Z.ltb_ge in H. now rewrite H.
  - apply Z.ltb_lt in H. now rewrite H.
Qed.

(** C5.  The key is the keyword behind a fixed prefix and nothing else.
    For a keyword whose entry is in the cache and alive, [getInsights]
    resolves with the stored value, performs no network effect and leaves
    the cache as it is, whatever the host and whatever [inputType],
    [outputType] and [stream] are. *)
Theorem getInsights_cached_keyword :
  forall (c : Cache.NodeCache) (now : Z) (inputValue : JsVal) (e : Cache.Entry),
    cache_state c ->
    Cache.data c !! cacheKey inputValue = Some e ->
    Cache.alive now e = true ->
    cacheKey inputValue = "insights-" +:+ to_string inputValue
    /\ forall (w : World) (later : Z) (inputType outputType stream : JsVal),
         getInsights w now later inputValue inputType outputType stream c
         = (Return (Cache.v e), c, []).
Proof.
  intros c now inputValue e Hc He Ha. split; [reflexivity|].
  intros w later inputType outputType stream.
  destruct (cache_state_inv c Hc) as [_ Hv].
  pose proof (cache_get_alive now _ c e He Ha) as Hget.
  rewrite getInsights_hit; rewrite Hget; cbn [fst snd]; eauto.
Qed.

Lemma nonempty_string_truthy text : text <> "" -> truthy (JStr text) = true.
Proof.
  intros H. cbn.
  destruct (String.eqb_spec text ""); [contradiction|reflexivity].
Qed.

(** C4, as the code has it.  For a keyword whose lookup gives
    [undefined], when the orchestration resolves with a response that has
    a non-empty string at [outputs[0].outputs[0].outputs.message.message.text]
    and the call is not in stream mode, [getInsights] resolves with
    exactly that string, and the cache then holds it under the keyword's
    key with a deadline one hour (3600000 ms) after the time of storing:
    a lookup gives it back up to that deadline and [undefined] after. *)
Theorem getInsights_returns_and_caches_text :
  forall (w : World) (now later : Z)
         (inputValue inputType outputType stream : JsVal)
         (c : Cache.NodeCache) (response : FlowResult) (io : list IO)
         (text : string),
    cache_state c -> 0 <= later ->
    fst (Cache.get now (cacheKey inputValue) c) = JUndefined ->
    orchestration w later inputValue inputType outputType stream
    = Some (Return response, io) ->
    truthy stream = false ->
    text_of response = JStr text -> text <> "" ->
    exists c',
      getInsights w now later inputValue inputType outputType stream c
      = (Return (JStr text), c', io)
      /\ Cache.data c' !! cacheKey inputValue
         = Some {| Cache.v := JStr text; Cache.t := later + ONE_HOUR_MS |}
      /\ forall t',
           fst (Cache.get t' (cacheKey inputValue) c')
           = if t' <=? later + ONE_HOUR_MS then JStr text else JUndefined.
Proof.
  intros w now later inputValue inputType outputType stream c response io
    text Hc Hl Hmiss Ho Hs Htext Hne.
  assert (Hfalsy : truthy (fst (Cache.get now (cacheKey inputValue) c)) = false)
    by now rewrite Hmiss.
  rewrite (getInsights_miss _ _ _ _ _ _ _ _ _ io Hfalsy Ho).
  rewrite Hs, Htext, (nonempty_string_truthy text Hne). cbn [negb andb].
  destruct (cache_get_inv now (cacheKey inputValue) c (cache_state_inv c Hc))
    as [Httl _].
  eexists. split; [reflexivity|]. split.
  - unfold Cache.set. cbn [Cache.data]. rewrite lookup_insert_eq, Httl.
    reflexivity.
  - intros t'. now apply cache_get_set.
Qed.

(** C7.  For a keyword whose lookup gives [undefined], when the
    orchestration resolves with a response in which the path
    [outputs[0].outputs[0].outputs.message.message.text] leads nowhere,
    [getInsights] rejects with [Invalid response format] behind the
    prefix [Failed to get insights: ], and stores nothing. *)
Theorem getInsights_rejects_missing_text :
  forall (w : World) (now later : Z)
         (inputValue inputType outputType stream : JsVal)
         (c : Cache.NodeCache) (response : FlowResult) (io : list IO),
    fst (Cache.get now (cacheKey inputValue) c) = JUndefined ->
    orchestration w later inputValue inputType outputType stream
    = Some (Return response, io) ->
    text_of response = JUndefined ->
    getInsights w now later inputValue inputType outputType stream c
    = (Throw (Error "Failed to get insights: Invalid response format"),
       snd (Cache.get now (cacheKey inputValue) c), io).
Proof.
  intros w now later inputValue inputType outputType stream c response io
    Hmiss Ho Htext.
  assert (Hfalsy : truthy (fst (Cache.get now (cacheKey inputValue) c)) = false)
    by now rewrite Hmiss.
  rewrite (getInsights_miss _ _ _ _ _ _ _ _ _ io Hfalsy Ho).
  rewrite Htext. cbn [truthy]. now rewrite andb_false_r.
Qed.

(** A stored value that is falsy does not answer the lookup: the call
    proceeds as it does once the entry is gone. *)
Lemma getInsights_falsy_entry w now later inputValue inputType outputType
    stream c e :
  Cache.data c !! cacheKey inputValue = Some e ->
  truthy (Cache.v e) = false ->
  let gone := {| Cache.stdTTL := Cache.stdTTL c;
                 Cache.data := delete (cacheKey inputValue) (Cache.data c) |} in
  fst (fst (getInsights w now later inputValue inputType outputType stream c))
  = fst (fst (getInsights w now later inputValue inputType outputType stream
                gone))
  /\ snd (getInsights w now later inputValue inputType outputType stream c)
     = snd (getInsights w now later inputValue inputType outputType stream gone).
Proof.
  intros He Hv gone.
  assert (H1 : truthy (fst (Cache.get now (cacheKey inputValue) c)) = false).
  { unfold Cache.get. rewrite He. now destruct (Cache.alive now e). }
  assert (H2 : truthy (fst (Cache.get now (cacheKey inputValue) gone)) = false).
  { unfold Cache.get, gone. cbn [Cache.data]. now rewrite lookup_delete_eq. }
  destruct (truthy (MODEL_TOKEN w)) eqn:Htok.
  - destruct (orchestration w later inputValue inputType outputType stream)
      as [[res io]|] eqn:Ho.
    + rewrite (getInsights_miss _ _ _ _ _ _ _ c res io H1 Ho).
      rewrite (getInsights_miss _ _ _ _ _ _ _ gone res io H2 Ho).
      destruct res as [response|error]; [|now split].
      now destruct (negb (truthy stream) && truthy (text_of response)).
    + unfold orchestration, new_LangflowClient in Ho.
      rewrite Htok in Ho. discriminate.
  - rewrite (getInsights_no_credential _ _ _ _ _ _ _ c H1 Htok).
    rewrite (getInsights_no_credential _ _ _ _ _ _ _ gone H2 Htok).
    now split.
Qed.

(** C10, as the code has it.  Every value stored in the cache is truthy,
    hence never the empty string.  On a miss, when the orchestration
    resolves with a response whose text is falsy (the empty string
    included), [getInsights] rejects with the invalid-response-format
    error and stores nothing.  And an entry whose value is falsy, in any
    cache whatever, does not answer a lookup: the call ends as it does
    on the cache without that entry. *)
Theorem cached_values_are_truthy :
  forall c : Cache.NodeCache,
    cache_state c ->
    (forall k e,
        Cache.data c !! k = Some e ->
        truthy (Cache.v e) = true /\ Cache.v e <> JStr "")
    /\ (forall w now later inputValue inputType outputType stream response io,
           fst (Cache.get now (cacheKey inputValue) c) = JUndefined ->
           orchestration w later inputValue inputType outputType stream
           = Some (Return response, io) ->
           truthy (text_of response) = false ->
           getInsights w now later inputValue inputType outputType stream c
           = (Throw invalid_response_format,
              snd (Cache.get now (cacheKey inputValue) c), io))
    /\ (forall w now later inputValue inputType outputType stream
               (any : Cache.NodeCache) e,
           Cache.data any !! cacheKey inputValue = Some e ->
           truthy (Cache.v e) = false ->
           fst (fst (getInsights w now later inputValue inputType outputType
                       stream any))
           = fst (fst (getInsights w now later inputValue inputType outputType
                         stream
                         {| Cache.stdTTL := Cache.stdTTL any;
                            Cache.data :=
                              delete (cacheKey inputValue) (Cache.data any) |}))).
Proof.
  intros c Hc. destruct (cache_state_inv c Hc) as [_ Hv].
  split; [|split].
  - intros k e He. split; [eauto|]. apply truthy_not_empty_string. eauto.
  - intros w now later inputValue inputType outputType stream response io
      Hmiss Ho Htext.
    assert (Hfalsy :
              truthy (fst (Cache.get now (cacheKey inputValue) c)) = false)
      by now rewrite Hmiss.
    rewrite (getInsights_miss _ _ _ _ _ _ _ _ _ io Hfalsy Ho).
    rewrite Htext. now rewrite andb_false_r.
  - intros w now later inputValue inputType outputType stream any e He Hf.
    apply (getInsights_falsy_entry w now later inputValue inputType outputType
             stream any e He Hf).
Qed.

Lemma getInsights_cached_keyword_witness :
  getInsights (unreachable "getaddrinfo ENOTFOUND") 100 200 (JStr "rust")
    (JStr "text") JUndefined (JBool true) rust_cached
  = (Return (JStr "hello"), rust_cached, []).
Proof.
  assert (Hc : cache_state rust_cached).
  { exact (cache_after_call hello_upstream 0 5 (JStr "rust") JUndefined
             JUndefined JUndefined Cache.insightsCache cache_created). }
  assert (He : Cache.data rust_cached !! cacheKey (JStr "rust")
               = Some {| Cache.v := JStr "hello"; Cache.t := 3600005 |}).
  { vm_compute. reflexivity. }
  exact (proj2 (getInsights_cached_keyword rust_cached 100 (JStr "rust") _
                  Hc He eq_refl)
           (unreachable "getaddrinfo ENOTFOUND") 200 (JStr "text") JUndefined
           (JBool true)).
Defined.

Lemma getInsights_returns_and_caches_text_witness :
  fst (fst (getInsights hello_upstream 0 5 (JStr "rust") JUndefined JUndefined
              JUndefined Cache.insightsCache))
  = Return (JStr "hello")
  /\ fst (Cache.get 3600005 "insights-rust" rust_cached) = JStr "hello"
  /\ fst (Cache.get 3600006 "insights-rust" rust_cached) = JUndefined.
Proof.
  assert (Hl : 0 <= 5) by discriminate.
  assert (Hne : "hello" <> "") by discriminate.
  destruct (getInsights_returns_and_caches_text hello_upstream 0 5 (JStr "rust")
              JUndefined JUndefined JUndefined Cache.insightsCache
              (InitResponse (nested_text (JStr "hello"))) _ "hello"
              cache_created Hl eq_refl eq_refl eq_refl eq_refl Hne)
    as (c' & Hcall & _ & Hget).
  assert (Hc' : c' = rust_cached).
  { unfold rust_cached. now rewrite Hcall. }
  subst c'. rewrite Hcall. split; [reflexivity|].
  split; [apply (Hget 3600005) | apply (Hget 3600006)].
Defined.

(** C4, as the claim has it, fails twice.  In stream mode the upstream
    answers with text at the path and [getInsights] rejects; and out of
    stream mode it rejects when the text at the path is the empty
    string.  Neither call stores anything. *)
Lemma getInsights_text_present_yet_rejected :
  (orchestration hello_upstream 5 (JStr "rust") JUndefined JUndefined
     (JBool true)
   = Some (Return (InitResponse (nested_text (JStr "hello"))),
           snd (getInsights hello_upstream 0 5 (JStr "rust") JUndefined
                  JUndefined (JBool true) Cache.insightsCache))
   /\ text_of (InitResponse (nested_text (JStr "hello"))) = JStr "hello"
   /\ fst (getInsights hello_upstream 0 5 (JStr "rust") JUndefined JUndefined
             (JBool true) Cache.insightsCache)
      = (Throw (Error "Failed to get insights: Invalid response format"),
         Cache.insightsCache))
  /\ (text_of (InitResponse (nested_text (JStr ""))) = JStr ""
      /\ fst (getInsights (respond 200 "OK" (Return (nested_text (JStr ""))))
                0 5 (JStr "rust") JUndefined JUndefined JUndefined
                Cache.insightsCache)
         = (Throw (Error "Failed to get insights: Invalid response format"),
            Cache.insightsCache)).
Proof. repeat split. Qed.

Lemma getInsights_rejects_missing_text_witness :
  fst (fst (getInsights (respond 200 "OK" (Return (JObj []))) 0 5 (JStr "rust")
              JUndefined JUndefined JUndefined Cache.insightsCache))
  = Throw (Error "Failed to get insights: Invalid response format").
Proof.
  rewrite (getInsights_rejects_missing_text
             (respond 200 "OK" (Return (JObj []))) 0 5 (JStr "rust")
             JUndefined JUndefined JUndefined Cache.insightsCache
             (InitResponse (JObj [])) _ eq_refl eq_refl eq_refl).
  reflexivity.
Defined.

Lemma cached_values_are_truthy_witness :
  (forall e, Cache.data rust_cached !! "insights-rust" = Some e ->
             Cache.v e <> JStr "")
  /\ fst (fst (getInsights (respond 200 "OK" (Return (nested_text (JStr ""))))
                 3700000 3700005 (JStr "rust") JUndefined JUndefined JUndefined
                 rust_cached))
     = Throw invalid_response_format
  /\ fst (fst (getInsights (unreachable "getaddrinfo ENOTFOUND") 0 5
                 (JStr "rust") JUndefined JUndefined JUndefined falsy_cached))
     = Throw (Error "Failed to get insights: Flow execution failed: Request failed: getaddrinfo ENOTFOUND").
Proof.
  assert (Hc : cache_state rust_cached).
  { exact (cache_after_call hello_upstream 0 5 (JStr "rust") JUndefined
             JUndefined JUndefined Cache.insightsCache cache_created). }
  destruct (cached_values_are_truthy rust_cached Hc) as (H1 & H2 & H3).
  split; [|split].
  - intros e He. exact (proj2 (H1 "insights-rust" e He)).
  - assert (Hmiss : fst (Cache.get 3700000 (cacheKey (JStr "rust")) rust_cached)
                    = JUndefined) by (vm_compute; reflexivity).
    rewrite (H2 (respond 200 "OK" (Return (nested_text (JStr ""))))
               3700000 3700005 (JStr "rust") JUndefined JUndefined JUndefined
               (InitResponse (nested_text (JStr ""))) _ Hmiss eq_refl eq_refl).
    reflexivity.
  - assert (He : Cache.data falsy_cached !! cacheKey (JStr "rust")
                 = Some {| Cache.v := JStr ""; Cache.t := 0 |})
      by (vm_compute; reflexivity).
    rewrite (H3 (unreachable "getaddrinfo ENOTFOUND") 0 5 (JStr "rust")
               JUndefined JUndefined JUndefined falsy_cached _ He eq_refl).
    vm_compute. reflexivity.
Defined.

(** C10, as the claim has it, fails: when the upstream puts the number 42
    at the text path, [getInsights] resolves with that number and stores
    it, so the cache holds a value that is not a string. *)
Lemma cache_stores_truthy_non_string :
  let upstream := respond 200 "OK" (Return (nested_text (JNum "42"))) in
  let call := getInsights upstream 0 5 (JStr "rust") JUndefined JUndefined
                JUndefined Cache.insightsCache in
  cache_state (snd (fst call))
  /\ fst (fst call) = Return (JNum "42")
  /\ Cache.data (snd (fst call)) !! "insights-rust"
     = Some {| Cache.v := JNum "42"; Cache.t := 3600005 |}
  /\ forall s, JNum "42" <> JStr s.
Proof.
  cbv zeta. split; [|split; [|split]].
  - apply cache_after_call, cache_created.
  - reflexivity.
  - vm_compute. reflexivity.
  - discriminate.
Qed.

(** ** HTTP boundary *)

Lemma errorHandler_500 msg :
  errorHandler (createError 500 msg) = internal_server_error.
Proof. reflexivity. Qed.

Lemma errorHandler_no_status msg :
  errorHandler (Error msg) = internal_server_error.
Proof. reflexivity. Qed.

(** C9.  When the lookup throws, whatever the error, the client of the
    route receives the status 500 and the body
    [{success: false, error: "Internal Server Error"}] and nothing else:
    two hosts, caches or keywords whose lookups both throw get the same
    reply.  An error that reaches the error handler with a status code
    other than 500 (and other than 0) is answered with that status and
    with its own message. *)
Theorem insights_route_hides_internal_errors :
  forall (w : World) (now later : Z) (keyword : string) (c : Cache.NodeCache)
         (error : JsError) (c' : Cache.NodeCache) (io : list IO),
    getInsights w now later (JStr keyword) JUndefined JUndefined JUndefined c
    = (Throw error, c', io) ->
    GET_insights w now later keyword c = (internal_server_error, c', io)
    /\ (forall w2 now2 later2 keyword2 c2 error2 c2' io2,
           getInsights w2 now2 later2 (JStr keyword2) JUndefined JUndefined
             JUndefined c2 = (Throw error2, c2', io2) ->
           fst (fst (GET_insights w2 now2 later2 keyword2 c2))
           = fst (fst (GET_insights w now later keyword c)))
    /\ (forall (validation : JsError) (s : N),
           statusCode validation = Some s -> s <> 0%N -> s <> 500%N ->
           errorHandler validation
           = {| code := s;
                payload := JObj [("success", JBool false);
                                 ("error", JStr (message validation))] |}).
Proof.
  intros w now later keyword c error c' io H.
  assert (Hroute : forall w0 now0 later0 keyword0 c0 error0 c0' io0,
             getInsights w0 now0 later0 (JStr keyword0) JUndefined JUndefined
               JUndefined c0 = (Throw error0, c0', io0) ->
             GET_insights w0 now0 later0 keyword0 c0
             = (internal_server_error, c0', io0)).
  { intros w0 now0 later0 keyword0 c0 error0 c0' io0 H0.
    unfold GET_insights, insights_handler. rewrite H0.
    now rewrite errorHandler_500. }
  split; [exact (Hroute _ _ _ _ _ _ _ _ H)|]. split.
  - intros w2 now2 later2 keyword2 c2 error2 c2' io2 H2.
    now rewrite (Hroute _ _ _ _ _ _ _ _ H2), (Hroute _ _ _ _ _ _ _ _ H).
  - intros validation s Hs H0 H500. unfold errorHandler. rewrite Hs.
    destruct s as [|p]; [contradiction|].
    destruct (N.eqb_spec (N.pos p) 500) as [E|_]; [contradiction|].
    reflexivity.
Qed.

Lemma insights_route_hides_internal_errors_witness :
  fst (fst (GET_insights
              (respond 503 "Service Unavailable"
                 (Return (JObj [("message", JStr "token secret rejected")])))
              0 5 "rust" Cache.insightsCache))
  = internal_server_error
  /\ errorHandler
       {| message := "params/keyword must NOT have fewer than 1 characters";
          statusCode := Some 400%N |}
     = {| code := 400;
          payload :=
            JObj [("success", JBool false);
                  ("error",
                   JStr "params/keyword must NOT have fewer than 1 characters")] |}.
Proof.
  destruct (insights_route_hides_internal_errors
              (respond 503 "Service Unavailable"
                 (Return (JObj [("message", JStr "token secret rejected")])))
              0 5 "rust" Cache.insightsCache _ _ _ eq_refl)
    as (H1 & _ & H3).
  split.
  - now rewrite H1.
  - assert (H0 : 400%N <> 0%N) by discriminate.
    assert (H500 : 400%N <> 500%N) by discriminate.
    exact (H3 {| message := "params/keyword must NOT have fewer than 1 characters";
                 statusCode := Some 400%N |} 400%N eq_refl H0 H500).
Defined.

(** * Further properties *)

(** ** Stream consumer: the closing paths *)

Lemma fire_due_idle now s : timers s = [] -> fire_due now s = s.
Proof.
  intros H. apply fire_due_early. rewrite H. intros t [].
Qed.

Lemma fire_due_pending now id due s :
  timers s = [(id, due)] -> now < due -> fire_due now s = s.
Proof.
  intros H Hlt. apply fire_due_early. rewrite H.
  intros t [<- | []]. exact Hlt.
Qed.

(** X1.  transport error.  In a state of a connection that is open, with
    the guard pending and not yet due, a transport error first cancels
    the guard, then hands the raw event to [onError], then closes: when
    [onError] returns, these are the only effects, the connection is
    closed and no timer is pending. *)
Theorem transport_error_closes_and_cancels :
  forall (s : EventSource) (now : Z) (event : string) (id : nat) (due : Z),
    consumer_state s ->
    closed s = false ->
    timers s = [(id, due)] -> now < due ->
    onError (handlers s) (ErrEvent event) = Return tt ->
    closed (deliver now (TransportError event) s) = true
    /\ timers (deliver now (TransportError event) s) = []
    /\ log (deliver now (TransportError event) s)
       = log s ++ [ClearTimeout id; CallError (ErrEvent event); EsClose].
Proof.
  intros s now event id due Hs Hopen Ht Hlt Herr.
  apply consumer_state_guard_inv in Hs. unfold guard_inv in Hs.
  rewrite Ht in Hs. unfold deliver.
  rewrite (fire_due_pending now id due s Ht Hlt), Hopen.
  destruct s as [u hs c h ts n l]. cbn in *. subst ts h.
  unfold_handlers. cbn. rewrite Herr. cbn. rewrite Nat.eqb_refl. cbn.
  rewrite <- !app_assoc. auto.
Qed.

Lemma transport_error_closes_and_cancels_witness :
  log (deliver 1000 (TransportError "error") (attached quiet 0))
  = [SetTimeout 1 30000; ClearTimeout 1; CallError (ErrEvent "error"); EsClose].
Proof.
  assert (Hs : consumer_state (attached quiet 0)).
  { exact (consumer_attached (fun _ => Return tt) 0 (JStr "https://stream")
             quiet (attached quiet 0) eq_refl). }
  assert (Hlt : 1000 < 30000) by reflexivity.
  exact (proj2 (proj2 (transport_error_closes_and_cancels (attached quiet 0)
                         1000 "error" 1%nat 30000 Hs eq_refl eq_refl Hlt
                         eq_refl))).
Defined.

Lemma calls_app l1 l2 : calls (l1 ++ l2) = calls l1 ++ calls l2.
Proof. apply List.filter_app. Qed.

Lemma updates_app l1 l2 : updates (l1 ++ l2) = updates l1 ++ updates l2.
Proof. apply List.filter_app. Qed.

(** X2.  server close.  In the same situation the server's [close] event
    cancels the guard and calls [onClose] with the message
    [Stream closed]; [onError] is not called.  What follows depends on
    [onClose]: when it returns, the connection is closed; when it throws,
    [close()] is not reached, and the connection stays open with no timer
    pending. *)
Theorem server_close_closes_and_cancels :
  forall (s : EventSource) (now : Z) (id : nat) (due : Z),
    consumer_state s ->
    closed s = false ->
    timers s = [(id, due)] -> now < due ->
    timers (deliver now ServerClose s) = []
    /\ calls (log (deliver now ServerClose s))
       = calls (log s) ++ [CallClose "Stream closed"]
    /\ match onClose (handlers s) "Stream closed" with
       | Return _ =>
           closed (deliver now ServerClose s) = true
           /\ log (deliver now ServerClose s)
              = log s ++ [ClearTimeout id; CallClose "Stream closed"; EsClose]
       | Throw e =>
           closed (deliver now ServerClose s) = false
           /\ log (deliver now ServerClose s)
              = log s ++ [ClearTimeout id; CallClose "Stream closed";
                          Uncaught e]
       end.
Proof.
  intros s now id due Hs Hopen Ht Hlt.
  apply consumer_state_guard_inv in Hs. unfold guard_inv in Hs.
  rewrite Ht in Hs. unfold deliver.
  rewrite (fire_due_pending now id due s Ht Hlt), Hopen.
  destruct s as [u hs c h ts n l]. cbn in *. subst c ts h.
  unfold_handlers. cbn. rewrite Nat.eqb_refl.
  destruct (onClose hs "Stream closed") as [[]|e]; cbn;
    rewrite <- !app_assoc; cbn; rewrite !calls_app; cbn; auto.
Qed.

Lemma server_close_closes_and_cancels_witness :
  log (deliver 1000 ServerClose (attached quiet 0))
  = [SetTimeout 1 30000; ClearTimeout 1; CallClose "Stream closed"; EsClose].
Proof.
  assert (Hs : consumer_state (attached quiet 0)).
  { exact (consumer_attached (fun _ => Return tt) 0 (JStr "https://stream")
             quiet (attached quiet 0) eq_refl). }
  assert (Hlt : 1000 < 30000) by reflexivity.
  destruct (server_close_closes_and_cancels (attached quiet 0) 1000 1%nat
              30000 Hs eq_refl eq_refl Hlt) as (_ & _ & H).
  exact (proj2 H).
Defined.

(** ** Stream consumer: the two closing events are final *)

Lemma deliver_quiescent now i s :
  closed s = true -> timers s = [] ->
  closed (deliver now i s) = true
  /\ timers (deliver now i s) = []
  /\ calls (log (deliver now i s)) = calls (log s).
Proof.
  intros Hc Ht. unfold deliver. rewrite (fire_due_idle now s Ht), Hc.
  destruct i; auto.
  destruct s as [u hs c h ts n l]. cbn in *.
  rewrite calls_app. cbn. now rewrite app_nil_r.
Qed.

Lemma run_quiescent (inputs : list (Z * Input)) :
  forall s : EventSource,
    closed s = true -> timers s = [] ->
    closed (run inputs s) = true
    /\ timers (run inputs s) = []
    /\ calls (log (run inputs s)) = calls (log s).
Proof.
  induction inputs as [|[now i] rest IH]; intros s Hc Ht; [now cbn|].
  cbn [run].
  destruct (deliver_quiescent now i s Hc Ht) as (Hc' & Ht' & Hl').
  destruct (IH _ Hc' Ht') as (H1 & H2 & H3).
  rewrite <- Hl'. auto.
Qed.

Lemma transport_error_effects s now event id due :
  guard_inv s -> closed s = false -> timers s = [(id, due)] -> now < due ->
  onError (handlers s) (ErrEvent event) = Return tt ->
  closed (deliver now (TransportError event) s) = true
  /\ timers (deliver now (TransportError event) s) = []
  /\ calls (log (deliver now (TransportError event) s))
     = calls (log s) ++ [CallError (ErrEvent event)].
Proof.
  intros Hs Hopen Ht Hlt Herr. unfold guard_inv in Hs. rewrite Ht in Hs.
  unfold deliver. rewrite (fire_due_pending now id due s Ht Hlt), Hopen.
  destruct s as [u hs c h ts n l]. cbn in *. subst c ts h.
  unfold_handlers. cbn. rewrite Herr. cbn. rewrite Nat.eqb_refl. cbn.
  rewrite !calls_app. cbn. rewrite !app_nil_r. auto.
Qed.

Lemma server_close_effects s now id due :
  guard_inv s -> closed s = false -> timers s = [(id, due)] -> now < due ->
  onClose (handlers s) "Stream closed" = Return tt ->
  closed (deliver now ServerClose s) = true
  /\ timers (deliver now ServerClose s) = []
  /\ calls (log (deliver now ServerClose s))
     = calls (log s) ++ [CallClose "Stream closed"].
Proof.
  intros Hs Hopen Ht Hlt Hcl. unfold guard_inv in Hs. rewrite Ht in Hs.
  unfold deliver. rewrite (fire_due_pending now id due s Ht Hlt), Hopen.
  destruct s as [u hs c h ts n l]. cbn in *. subst c ts h.
  unfold_handlers. cbn. rewrite Hcl. cbn. rewrite Nat.eqb_refl. cbn.
  rewrite !calls_app. cbn. rewrite !app_nil_r. auto.
Qed.

(** X3.  a transport error is final.  On an open connection whose guard
    is not yet due, after a transport error whose [onError] returned, no
    handler is ever called again: whatever the host delivers afterwards
    and however long it waits, the call of [onError] with the raw event
    is the last one.  This rests on the [clearTimeout] of line 79:
    without it the guard would fire later. *)
Theorem transport_error_is_final :
  forall (s : EventSource) (now : Z) (event : string) (id : nat) (due : Z)
         (inputs : list (Z * Input)),
    consumer_state s ->
    closed s = false ->
    timers s = [(id, due)] -> now < due ->
    onError (handlers s) (ErrEvent event) = Return tt ->
    closed (run inputs (deliver now (TransportError event) s)) = true
    /\ calls (log (run inputs (deliver now (TransportError event) s)))
       = calls (log s) ++ [CallError (ErrEvent event)].
Proof.
  intros s now event id due inputs Hs Hopen Ht Hlt Herr.
  apply consumer_state_guard_inv in Hs.
  destruct (transport_error_effects s now event id due Hs Hopen Ht Hlt Herr)
    as (Hc & Ht' & Hl).
  destruct (run_quiescent inputs _ Hc Ht') as (H1 & _ & H3).
  split; [exact H1|]. now rewrite H3.
Qed.

Lemma transport_error_is_final_witness :
  calls (log (run [(2000, Message (Return JNull)); (2500, HandleClose);
                   (40000, TransportError "late"); (90000, Idle)]
                (deliver 1000 (TransportError "error") (attached quiet 0))))
  = [CallError (ErrEvent "error")].
Proof.
  assert (Hs : consumer_state (attached quiet 0)).
  { exact (consumer_attached (fun _ => Return tt) 0 (JStr "https://stream")
             quiet (attached quiet 0) eq_refl). }
  assert (Hlt : 1000 < 30000) by reflexivity.
  exact (proj2 (transport_error_is_final (attached quiet 0) 1000 "error"
                  1%nat 30000
                  [(2000, Message (Return JNull)); (2500, HandleClose);
                   (40000, TransportError "late"); (90000, Idle)]
                  Hs eq_refl eq_refl Hlt eq_refl)).
Defined.

(** X4.  a server close is final.  On an open connection whose guard is
    not yet due, after the server's [close] event whose [onClose]
    returned, no handler is ever called again: the call of [onClose] is
    the last one, and no timeout follows.  This rests on the
    [clearTimeout] of line 85. *)
Theorem server_close_is_final :
  forall (s : EventSource) (now : Z) (id : nat) (due : Z)
         (inputs : list (Z * Input)),
    consumer_state s ->
    closed s = false ->
    timers s = [(id, due)] -> now < due ->
    onClose (handlers s) "Stream closed" = Return tt ->
    closed (run inputs (deliver now ServerClose s)) = true
    /\ calls (log (run inputs (deliver now ServerClose s)))
       = calls (log s) ++ [CallClose "Stream closed"].
Proof.
  intros s now id due inputs Hs Hopen Ht Hlt Hcl.
  apply consumer_state_guard_inv in Hs.
  destruct (server_close_effects s now id due Hs Hopen Ht Hlt Hcl)
    as (Hc & Ht' & Hl).
  destruct (run_quiescent inputs _ Hc Ht') as (H1 & _ & H3).
  split; [exact H1|]. now rewrite H3.
Qed.

Lemma server_close_is_final_witness :
  calls (log (run [(2000, Message (Return JNull)); (40000, Idle);
                   (90000, ServerClose)]
                (deliver 1000 ServerClose (attached quiet 0))))
  = [CallClose "Stream closed"].
Proof.
  assert (Hs : consumer_state (attached quiet 0)).
  { exact (consumer_attached (fun _ => Return tt) 0 (JStr "https://stream")
             quiet (attached quiet 0) eq_refl). }
  assert (Hlt : 1000 < 30000) by reflexivity.
  exact (proj2 (server_close_is_final (attached quiet 0) 1000 1%nat 30000
                  [(2000, Message (Return JNull)); (40000, Idle);
                   (90000, ServerClose)]
                  Hs eq_refl eq_refl Hlt eq_refl)).
Defined.

(** ** Stream consumer: what a closed connection never does *)

Lemma heartbeat_expired_no_update cb s :
  updates (log (run_handler (heartbeat_expired cb) s)) = updates (log s).
Proof.
  destruct s as [u hs c h ts n l]. unfold_handlers. cbn.
  case_callback; rewrite !updates_app; cbn; now rewrite !app_nil_r.
Qed.

Lemma fire_timers_closed cb (due : list (nat * Z)) s :
  closed s = true ->
  closed (List.fold_left
            (fun acc _ => run_handler (heartbeat_expired cb) acc) due s)
  = true.
Proof.
  revert s. induction due as [|d due IH]; intros s H; [exact H|].
  cbn [List.fold_left]. apply IH.
  now destruct (heartbeat_expired_effects cb s) as (Hc & _).
Qed.

Lemma fire_timers_no_update cb (due : list (nat * Z)) s :
  updates (log (List.fold_left
                  (fun acc _ => run_handler (heartbeat_expired cb) acc) due s))
  = updates (log s).
Proof.
  revert s. induction due as [|d due IH]; intros s; [reflexivity|].
  cbn [List.fold_left]. rewrite IH. apply heartbeat_expired_no_update.
Qed.

Lemma fire_due_closed now s : closed s = true -> closed (fire_due now s) = true.
Proof. intros H. unfold fire_due. now apply fire_timers_closed. Qed.

Lemma fire_due_no_update now s :
  updates (log (fire_due now s)) = updates (log s).
Proof. unfold fire_due. now rewrite fire_timers_no_update. Qed.

Lemma deliver_closed now i s :
  closed s = true ->
  closed (deliver now i s) = true
  /\ updates (log (deliver now i s)) = updates (log s).
Proof.
  intros H. unfold deliver.
  pose proof (fire_due_closed now s H) as Hc.
  pose proof (fire_due_no_update now s) as Hu.
  destruct (fire_due now s) as [u hs c h ts n l]. cbn in Hc, Hu. subst c.
  destruct i; cbn; auto.
  rewrite updates_app. cbn. now rewrite app_nil_r.
Qed.

(** ** Stream consumer: an open connection is guarded *)

Lemma fire_timers_handlers cb (due : list (nat * Z)) s :
  handlers (List.fold_left
              (fun acc _ => run_handler (heartbeat_expired cb) acc) due s)
  = handlers s.
Proof.
  revert s. induction due as [|d due IH]; intros s; [reflexivity|].
  cbn [List.fold_left]. rewrite IH.
  destruct s as [u hs c h ts n l]. unfold_handlers. cbn.
  now case_callback.
Qed.

Lemma deliver_handlers now i s : handlers (deliver now i s) = handlers s.
Proof.
  unfold deliver.
  assert (H : handlers (fire_due now s) = handlers s).
  { unfold fire_due. now rewrite fire_timers_handlers. }
  set (cb := handlers s) in *. clearbody cb.
  destruct (fire_due now s) as [u hs c h ts n l]. cbn in H. subst hs.
  destruct i as [parsed | event | | |]; cbn; try reflexivity.
  - destruct c; [reflexivity|]. unfold_handlers.
    destruct h; cbn; destruct parsed; cbn; repeat case_callback; reflexivity.
  - destruct c; [reflexivity|]. unfold_handlers.
    destruct h; cbn; repeat case_callback; reflexivity.
  - destruct c; [reflexivity|]. unfold_handlers.
    destruct h; cbn; repeat case_callback; reflexivity.
Qed.

Lemma onerror_closes cb event s :
  well_behaved cb -> closed (run_handler (onerror cb event) s) = true.
Proof.
  intros [He _]. destruct s as [u hs c h ts n l]. unfold_handlers.
  destruct h; cbn; rewrite He; reflexivity.
Qed.

Lemma onclose_closes cb s :
  well_behaved cb -> closed (run_handler (onclose cb) s) = true.
Proof.
  intros [_ Hc]. destruct s as [u hs c h ts n l]. unfold_handlers.
  destruct h; cbn; rewrite Hc; reflexivity.
Qed.

Lemma deliver_armed now i s :
  guard_inv s -> well_behaved (handlers s) ->
  (closed s = false -> timers s <> []) ->
  closed (deliver now i s) = false -> timers (deliver now i s) <> [].
Proof.
  intros Hinv Hwb Harmed.
  destruct (closed s) eqn:Hc.
  { intros H. destruct (deliver_closed now i s Hc) as [H' _]. congruence. }
  specialize (Harmed eq_refl).
  destruct (guard_inv_cases s Hinv) as [Ht | (id & due & Ht & Hh)];
    [contradiction|].
  destruct (Z.le_gt_cases due now) as [Hle | Hgt].
  - destruct (fire_due_fires now id due s Ht Hle) as (Hc1 & _).
    unfold deliver. cbv zeta.
    destruct i; rewrite ?Hc1; try congruence.
    destruct (fire_due now s); cbn in *. congruence.
  - unfold deliver. rewrite (fire_due_pending now id due s Ht); [|lia].
    rewrite Hc. destruct i as [parsed | event | | |].
    + intros _.
      destruct (onmessage_rearms (handlers s) now parsed s Hinv) as [H _].
      rewrite H. discriminate.
    + rewrite onerror_closes by exact Hwb. discriminate.
    + rewrite onclose_closes by exact Hwb. discriminate.
    + destruct s; cbn. discriminate.
    + intros _. rewrite Ht. discriminate.
Qed.

Lemma consumer_state_armed s :
  consumer_state s -> well_behaved (handlers s) ->
  closed s = false -> timers s <> [].
Proof.
  induction 1 as [ctor now streamUrl cb s H | now i s Hs IH].
  - apply handleStream_returns in H. subst s. discriminate.
  - rewrite deliver_handlers. intros Hwb.
    apply deliver_armed; auto using consumer_state_guard_inv.
Qed.

(** Without that, a connection can stay open with no guard: when
    [onError] throws in the transport-error handler, [close()] is not
    reached. *)
Lemma throwing_onError_leaves_connection_open :
  let s := deliver 1000 (TransportError "error") (attached throwing_onError 0) in
  closed s = false /\ timers s = [].
Proof. cbv zeta. split; reflexivity. Qed.

(** X5.  the guard of an open connection.  A connection never has more
    than one timer pending.  When the [onError] and [onClose] it was
    given return normally, a connection that is still open has exactly
    one, the one the variable [heartbeatTimeout] names: an open
    connection cannot outlive its idle timeout. *)
Theorem open_connection_is_guarded :
  forall s : EventSource,
    consumer_state s ->
    (length (timers s) <= 1)%nat
    /\ (well_behaved (handlers s) ->
        closed s = false ->
        exists id due,
          timers s = [(id, due)] /\ heartbeatTimeout s = Some id).
Proof.
  intros s Hs. pose proof (consumer_state_guard_inv s Hs) as Hinv.
  split.
  - destruct (guard_inv_cases s Hinv) as [-> | (id & due & -> & _)]; cbn; lia.
  - intros Hwb Hopen.
    pose proof (consumer_state_armed s Hs Hwb Hopen) as Hne.
    destruct (guard_inv_cases s Hinv) as [Ht | H]; [contradiction|exact H].
Qed.

Lemma open_connection_is_guarded_witness :
  exists id due,
    timers (deliver 2000 (Message (Return JNull)) (attached quiet 0))
    = [(id, due)]
    /\ heartbeatTimeout (deliver 2000 (Message (Return JNull)) (attached quiet 0))
       = Some id.
Proof.
  assert (Hs : consumer_state
                 (deliver 2000 (Message (Return JNull)) (attached quiet 0))).
  { apply consumer_turn.
    exact (consumer_attached (fun _ => Return tt) 0 (JStr "https://stream")
             quiet (attached quiet 0) eq_refl). }
  assert (Hwb : well_behaved quiet) by (split; reflexivity).
  exact (proj2 (open_connection_is_guarded _ Hs) Hwb eq_refl).
Defined.

(** X6.  closing the handle.  When the caller closes the handle of an open
    connection, the connection is closed and no handler is called, but
    the pending guard is left as it is: once it is due it fires, and
    [onError] receives [Stream timeout] on a connection the caller
    closed. *)
Theorem handle_close_leaves_guard_pending :
  forall (s : EventSource) (now : Z) (id : nat) (due : Z),
    consumer_state s ->
    timers s = [(id, due)] -> now < due ->
    let s1 := deliver now HandleClose s in
    closed s1 = true
    /\ timers s1 = [(id, due)]
    /\ log s1 = log s ++ [EsClose]
    /\ forall (t : Z) (i : Input),
         due <= t ->
         exists rest, log (deliver t i s1) = log s1 ++ timeout_effects ++ rest.
Proof.
  intros s now id due Hs Ht Hlt s1.
  assert (E : s1 = snd (es_close s)).
  { unfold s1, deliver. rewrite (fire_due_pending now id due s Ht Hlt).
    reflexivity. }
  assert (Ht1 : timers s1 = [(id, due)]) by (rewrite E; exact Ht).
  split; [now rewrite E|]. split; [exact Ht1|]. split; [now rewrite E|].
  intros t i Hdue.
  destruct (fire_due_fires t id due s1 Ht1 Hdue) as (Hc & _ & _ & rest & Hl).
  unfold deliver. cbv zeta.
  destruct i as [parsed | event | | |]; rewrite ?Hc; eauto.
  exists (rest ++ [EsClose]).
  destruct (fire_due t s1); cbn in *. rewrite Hl. now rewrite <- !app_assoc.
Qed.

Lemma handle_close_leaves_guard_pending_witness :
  exists rest,
    log (deliver 30000 Idle (deliver 1000 HandleClose (attached quiet 0)))
    = log (deliver 1000 HandleClose (attached quiet 0))
      ++ timeout_effects ++ rest.
Proof.
  assert (Hs : consumer_state (attached quiet 0)).
  { exact (consumer_attached (fun _ => Return tt) 0 (JStr "https://stream")
             quiet (attached quiet 0) eq_refl). }
  assert (Hlt : 1000 < 30000) by reflexivity.
  destruct (handle_close_leaves_guard_pending (attached quiet 0) 1000 1%nat
              30000 Hs eq_refl Hlt) as (_ & _ & _ & H).
  exact (H 30000 Idle (Z.le_refl 30000)).
Defined.

(** ** Stream consumer: messages *)

Lemma deliver_message_relayed now data id due s :
  closed s = false -> timers s = [(id, due)] -> heartbeatTimeout s = Some id ->
  now < due ->
  onUpdate (handlers s) data = Return tt ->
  deliver now (Message (Return data)) s
  = {| es_url := es_url s; handlers := handlers s; closed := false;
       heartbeatTimeout := Some (next_timer s);
       timers := [(next_timer s, now + 30000)];
       next_timer := S (next_timer s);
       log := log s ++ [ClearTimeout id; SetTimeout (next_timer s) (now + 30000);
                        CallUpdate data] |}.
Proof.
  intros Hopen Ht Hh Hlt Hup. unfold deliver.
  rewrite (fire_due_pending now id due s Ht Hlt), Hopen.
  destruct s as [u hs c h ts n l]. cbn in *. subst c ts h.
  unfold_handlers. cbn. rewrite Nat.eqb_refl, Hup. cbn.
  now rewrite <- !app_assoc.
Qed.

(** X7.  a well-formed message.  On an open connection whose guard is not
    yet due, a message whose payload parses is relayed: the guard is
    cancelled and armed again 30000 ms after the message, [onUpdate] is
    called once with the parsed value, and when it returns nothing else
    happens and the connection stays open. *)
Theorem message_relays_update :
  forall (s : EventSource) (now : Z) (data : JsVal) (id : nat) (due : Z),
    consumer_state s ->
    closed s = false ->
    timers s = [(id, due)] -> now < due ->
    onUpdate (handlers s) data = Return tt ->
    closed (deliver now (Message (Return data)) s) = false
    /\ timers (deliver now (Message (Return data)) s)
       = [(next_timer s, now + 30000)]
    /\ log (deliver now (Message (Return data)) s)
       = log s ++ [ClearTimeout id; SetTimeout (next_timer s) (now + 30000);
                   CallUpdate data].
Proof.
  intros s now data id due Hs Hopen Ht Hlt Hup.
  apply consumer_state_guard_inv in Hs. unfold guard_inv in Hs.
  rewrite Ht in Hs.
  rewrite (deliver_message_relayed now data id due s Hopen Ht Hs Hlt Hup).
  repeat split.
Qed.

Lemma message_relays_update_witness :
  log (deliver 1000 (Message (Return (JStr "chunk"))) (attached quiet 0))
  = [SetTimeout 1 30000; ClearTimeout 1; SetTimeout 2 31000;
     CallUpdate (JStr "chunk")].
Proof.
  assert (Hs : consumer_state (attached quiet 0)).
  { exact (consumer_attached (fun _ => Return tt) 0 (JStr "https://stream")
             quiet (attached quiet 0) eq_refl). }
  assert (Hlt : 1000 < 30000) by reflexivity.
  exact (proj2 (proj2 (message_relays_update (attached quiet 0) 1000
                         (JStr "chunk") 1%nat 30000 Hs eq_refl eq_refl Hlt
                         eq_refl))).
Defined.

(** X8.  a malformed message.  On an open connection whose guard is not
    yet due, a message whose payload does not parse is reported to
    [onError] as [Failed to parse stream data: <parser's message>];
    [onUpdate] is not called, and when [onError] returns the connection is
    closed. *)
Theorem malformed_message_reports_and_closes :
  forall (s : EventSource) (now : Z) (e : JsError) (id : nat) (due : Z),
    consumer_state s ->
    closed s = false ->
    timers s = [(id, due)] -> now < due ->
    onError (handlers s)
      (ErrObject (Error ("Failed to parse stream data: " +:+ message e)))
    = Return tt ->
    closed (deliver now (Message (Throw e)) s) = true
    /\ updates (log (deliver now (Message (Throw e)) s)) = updates (log s)
    /\ log (deliver now (Message (Throw e)) s)
       = log s ++ [ClearTimeout id; SetTimeout (next_timer s) (now + 30000);
                   CallError (ErrObject
                                (Error ("Failed to parse stream data: "
                                        +:+ message e)));
                   EsClose].
Proof.
  intros s now e id due Hs Hopen Ht Hlt Herr.
  apply consumer_state_guard_inv in Hs. unfold guard_inv in Hs.
  rewrite Ht in Hs. unfold deliver.
  rewrite (fire_due_pending now id due s Ht Hlt), Hopen.
  destruct s as [u hs c h ts n l]. cbn in *. subst c ts h.
  unfold_handlers. cbn. rewrite Nat.eqb_refl, Herr. cbn.
  rewrite <- !app_assoc. cbn. split; [reflexivity|]. split; [|reflexivity].
  rewrite updates_app. cbn. now rewrite app_nil_r.
Qed.

Lemma malformed_message_reports_and_closes_witness :
  closed (deliver 1000 (Message (Throw (Error "Unexpected end of JSON input")))
            (attached quiet 0)) = true.
Proof.
  assert (Hs : consumer_state (attached quiet 0)).
  { exact (consumer_attached (fun _ => Return tt) 0 (JStr "https://stream")
             quiet (attached quiet 0) eq_refl). }
  assert (Hlt : 1000 < 30000) by reflexivity.
  exact (proj1 (malformed_message_reports_and_closes (attached quiet 0) 1000
                  (Error "Unexpected end of JSON input") 1%nat 30000 Hs
                  eq_refl eq_refl Hlt eq_refl)).
Defined.

Lemma steady_run messages :
  forall (s : EventSource) (id : nat) (due : Z),
    closed s = false -> timers s = [(id, due)] ->
    heartbeatTimeout s = Some id ->
    (forall data, onUpdate (handlers s) data = Return tt) ->
    steady due messages ->
    closed (run (as_inputs messages) s) = false
    /\ calls (log (run (as_inputs messages) s))
       = calls (log s) ++ List.map (fun m => CallUpdate (snd m)) messages.
Proof.
  induction messages as [|[now data] rest IH];
    intros s id due Hopen Ht Hh Hup Hsteady.
  - cbn. now rewrite app_nil_r.
  - destruct Hsteady as [Hlt Hrest]. cbn [as_inputs List.map run fst snd].
    rewrite (deliver_message_relayed now data id due s Hopen Ht Hh Hlt
               (Hup data)).
    match goal with
    | |- context [run _ ?s1] =>
        destruct (IH s1 (next_timer s) (now + 30000) eq_refl eq_refl eq_refl
                    Hup Hrest) as [Hc Hl]
    end.
    split; [exact Hc|]. unfold as_inputs in Hl. rewrite Hl.
    cbn [log]. rewrite calls_app. cbn. now rewrite <- app_assoc.
Qed.

(** X9.  a steady stream.  On an open connection with a consumer whose
    [onUpdate] returns normally, messages that each arrive less than
    30000 ms after the previous one (the first before the guard is due)
    are all relayed, each once and in their order; no other handler is
    called, the timeout never fires and the connection is still open
    after the last one, however long the stream lasts. *)
Theorem steady_stream_relays_every_update :
  forall (s : EventSource) (id : nat) (due : Z) (messages : list (Z * JsVal)),
    consumer_state s ->
    closed s = false ->
    timers s = [(id, due)] ->
    (forall data, onUpdate (handlers s) data = Return tt) ->
    steady due messages ->
    closed (run (as_inputs messages) s) = false
    /\ calls (log (run (as_inputs messages) s))
       = calls (log s) ++ List.map (fun m => CallUpdate (snd m)) messages.
Proof.
  intros s id due messages Hs Hopen Ht Hup Hsteady.
  apply consumer_state_guard_inv in Hs. unfold guard_inv in Hs.
  rewrite Ht in Hs.
  exact (steady_run messages s id due Hopen Ht Hs Hup Hsteady).
Qed.

Lemma steady_stream_relays_every_update_witness :
  calls (log (run (as_inputs [(20000, JStr "a"); (45000, JStr "b");
                              (70000, JStr "c")])
                (attached quiet 0)))
  = [CallUpdate (JStr "a"); CallUpdate (JStr "b"); CallUpdate (JStr "c")].
Proof.
  assert (Hs : consumer_state (attached quiet 0)).
  { exact (consumer_attached (fun _ => Return tt) 0 (JStr "https://stream")
             quiet (attached quiet 0) eq_refl). }
  assert (Hsteady : steady 30000 [(20000, JStr "a"); (45000, JStr "b");
                                  (70000, JStr "c")]).
  { cbn. repeat split. }
  exact (proj2 (steady_stream_relays_every_update (attached quiet 0) 1%nat
                  30000 _ Hs eq_refl eq_refl (fun _ => eq_refl) Hsteady)).
Defined.

(** ** Request client: the request and the success path *)

(** X10.  the request.  With the three required arguments present, a
    client built by the constructor issues exactly one request: a POST to
    [<baseURL>/lf/<langflowId>/api/v1/run/<flowId>?stream=<stream>], with
    the bearer token and the JSON content type in its headers, and a body
    of the four fields [input_value], [input_type], [output_type] and
    [tweaks]; a missing [inputType] or [outputType] is sent as [chat], a
    missing [stream] as [false] and missing [tweaks] as the empty
    object. *)
Theorem initiateSession_request :
  forall (w : World) (base token : JsVal) (this : LangflowClient)
         (flowId langflowId inputValue inputType outputType stream tweaks
            : JsVal),
    new_LangflowClient base token = Return this ->
    truthy flowId = true -> truthy langflowId = true ->
    truthy inputValue = true ->
    snd (initiateSession w this flowId langflowId inputValue inputType
           outputType stream tweaks)
    = [Fetch
         {| url := to_string base +:+ "/lf/" +:+ to_string langflowId
                   +:+ "/api/v1/run/" +:+ to_string flowId +:+ "?stream="
                   +:+ to_string (default_arg stream (JBool false));
            method := "POST";
            headers := [("Authorization", "Bearer " +:+ to_string token);
                        ("Content-Type", "application/json")];
            body :=
              JObj [("input_value", inputValue);
                    ("input_type", default_arg inputType (JStr "chat"));
                    ("output_type", default_arg outputType (JStr "chat"));
                    ("tweaks", default_arg tweaks (JObj []))];
            timeout := 30000 |}].
Proof.
  intros w base token this flowId langflowId inputValue inputType outputType
    stream tweaks Hnew Hf Hl Hi.
  unfold new_LangflowClient in Hnew.
  destruct (negb (truthy base) || negb (truthy token)); [discriminate|].
  injection Hnew as <-.
  unfold initiateSession. rewrite Hf, Hl, Hi. reflexivity.
Qed.

Lemma initiateSession_request_witness :
  exists req,
    snd (initiateSession (unreachable "ECONNREFUSED") a_client (JStr "flow")
           (JStr "group") (JStr "rust") JUndefined JUndefined JUndefined
           JUndefined) = [Fetch req]
    /\ url req
       = "https://api.langflow.astra.datastax.com/lf/group/api/v1/run/flow?stream=false".
Proof.
  eexists. split.
  - exact (initiateSession_request (unreachable "ECONNREFUSED")
             (JStr "https://api.langflow.astra.datastax.com") (JStr "secret")
             a_client (JStr "flow") (JStr "group") (JStr "rust") JUndefined
             JUndefined JUndefined JUndefined eq_refl eq_refl eq_refl eq_refl).
  - reflexivity.
Defined.

(** X11.  the success path.  With the required arguments present, when the
    upstream answers the request with a status from 200 to 299,
    [initiateSession] settles exactly as [response.json()] does: it
    resolves with the parsed body, and when the body is not JSON it
    rejects with the parse error itself, which does not get the prefix
    [Request failed: ] that the other failures of [post] carry. *)
Theorem initiateSession_success_passes_body :
  forall (w : World) (this : LangflowClient)
         (flowId langflowId inputValue inputType outputType stream tweaks
            : JsVal),
    truthy flowId = true -> truthy langflowId = true ->
    truthy inputValue = true ->
    exists req,
      snd (initiateSession w this flowId langflowId inputValue inputType
             outputType stream tweaks) = [Fetch req]
      /\ forall r,
           fetch w req = Responded r ->
           (200 <= status r <= 299)%N ->
           fst (initiateSession w this flowId langflowId inputValue
                  inputType outputType stream tweaks)
           = json r.
Proof.
  intros w this flowId langflowId inputValue inputType outputType stream
    tweaks Hf Hl Hi.
  unfold initiateSession. rewrite Hf, Hl, Hi. cbn [negb orb].
  unfold post. eexists. split; [reflexivity|].
  intros r Hr [Hlo Hhi]. cbn [fst]. rewrite Hr.
  unfold ok. apply N.leb_le in Hlo, Hhi. rewrite Hlo, Hhi. reflexivity.
Qed.

Lemma initiateSession_success_passes_body_witness :
  fst (initiateSession (respond 200 "OK" (Throw (Error "Unexpected token <")))
         a_client (JStr "flow") (JStr "group") (JStr "rust") JUndefined
         JUndefined JUndefined JUndefined)
  = Throw (Error "Unexpected token <").
Proof.
  destruct (initiateSession_success_passes_body
              (respond 200 "OK" (Throw (Error "Unexpected token <")))
              a_client (JStr "flow") (JStr "group") (JStr "rust") JUndefined
              JUndefined JUndefined JUndefined eq_refl eq_refl eq_refl)
    as [req [Hio H]].
  assert (Hrange : (200 <= 200 <= 299)%N) by (split; discriminate).
  exact (H {| status := 200; statusText := "OK";
              json := Throw (Error "Unexpected token <") |} eq_refl Hrange).
Defined.

(** ** Orchestration: [runFlow] *)

Lemma starts_with_app p rest : starts_with p (p +:+ rest).
Proof. now exists rest. Qed.

Lemma forallb_is_fetch_post w this endpoint body :
  forallb is_fetch (snd (post w this endpoint body)) = true.
Proof. reflexivity. Qed.

Lemma forallb_is_fetch_initiateSession w this f l i it ot s tw :
  forallb is_fetch (snd (initiateSession w this f l i it ot s tw)) = true.
Proof.
  unfold initiateSession.
  destruct (negb (truthy f) || negb (truthy l) || negb (truthy i));
    reflexivity.
Qed.

(** X12.  synchronous mode.  When [stream] is missing or falsy, [runFlow]
    never constructs an [EventSource], whatever the response contains: it
    performs the effects of [initiateSession] and nothing more, resolves
    with the response that [initiateSession] resolved with, and rejects
    with its error behind the prefix [Flow execution failed: ]. *)
Theorem runFlow_synchronous_mode :
  forall (w : World) (this : LangflowClient) (now : Z)
         (flowIdOrName langflowId inputValue inputType outputType tweaks
            stream : JsVal)
         (callbacks : Callbacks),
    truthy stream = false ->
    let session :=
      initiateSession w this flowIdOrName langflowId inputValue
        (default_arg inputType (JStr "chat"))
        (default_arg outputType (JStr "chat"))
        (default_arg stream (JBool false))
        (default_arg tweaks (JObj [])) in
    runFlow w this now flowIdOrName langflowId inputValue inputType outputType
      tweaks stream callbacks
    = (match fst session with
       | Return initResponse => Return (InitResponse initResponse)
       | Throw error =>
           Throw (Error ("Flow execution failed: " +:+ message error))
       end,
       snd session)
    /\ forallb is_fetch
         (snd (runFlow w this now flowIdOrName langflowId inputValue inputType
                 outputType tweaks stream callbacks)) = true.
Proof.
  intros w this now flowIdOrName langflowId inputValue inputType outputType
    tweaks stream callbacks Hs session.
  assert (E : runFlow w this now flowIdOrName langflowId inputValue inputType
                outputType tweaks stream callbacks
              = (match fst session with
                 | Return initResponse => Return (InitResponse initResponse)
                 | Throw error =>
                     Throw (Error ("Flow execution failed: "
                                   +:+ message error))
                 end,
                 snd session)).
  { unfold runFlow. fold session. rewrite truthy_default_stream, Hs.
    cbn [andb]. now destruct session as [[r|e] io]. }
  split; [exact E|]. rewrite E. cbn [snd].
  apply forallb_is_fetch_initiateSession.
Qed.

Lemma runFlow_synchronous_mode_witness :
  runFlow
    (respond 200 "OK"
       (Return (JObj [("outputs",
          JArr [JObj [("outputs",
             JArr [JObj [("artifacts",
                JObj [("stream_url", JStr "https://stream")])]])]])])))
    a_client 5 (JStr "flow") (JStr "group") (JStr "rust") JUndefined
    JUndefined JUndefined JUndefined quiet
  = (Return (InitResponse
       (JObj [("outputs",
          JArr [JObj [("outputs",
             JArr [JObj [("artifacts",
                JObj [("stream_url", JStr "https://stream")])]])]])])),
     snd (initiateSession
            (respond 200 "OK"
               (Return (JObj [("outputs",
                  JArr [JObj [("outputs",
                     JArr [JObj [("artifacts",
                        JObj [("stream_url", JStr "https://stream")])]])]])])))
            a_client (JStr "flow") (JStr "group") (JStr "rust") JUndefined
            JUndefined JUndefined JUndefined)).
Proof.
  rewrite (proj1 (runFlow_synchronous_mode _ a_client 5 (JStr "flow")
                    (JStr "group") (JStr "rust") JUndefined JUndefined
                    JUndefined JUndefined quiet eq_refl)).
  reflexivity.
Defined.

(** X13.  stream mode.  When [stream] is truthy and [initiateSession]
    resolves, [runFlow] looks for a truthy
    [outputs[0].outputs[0].artifacts.stream_url]: without one it resolves
    with the response as in synchronous mode; with one it constructs the
    [EventSource] on that URL and, when the constructor returns, resolves
    with a connection that is open, carries the handlers it was given and
    has its guard due 30000 ms later. *)
Theorem runFlow_stream_mode :
  forall (w : World) (this : LangflowClient) (now : Z)
         (flowIdOrName langflowId inputValue inputType outputType tweaks
            stream : JsVal)
         (callbacks : Callbacks) (initResponse : JsVal) (io : list IO),
    truthy stream = true ->
    initiateSession w this flowIdOrName langflowId inputValue
      (default_arg inputType (JStr "chat"))
      (default_arg outputType (JStr "chat"))
      stream
      (default_arg tweaks (JObj []))
    = (Return initResponse, io) ->
    (truthy (stream_url_of initResponse) = false ->
     runFlow w this now flowIdOrName langflowId inputValue inputType
       outputType tweaks stream callbacks
     = (Return (InitResponse initResponse), io))
    /\ (truthy (stream_url_of initResponse) = true ->
        EventSource_new w (stream_url_of initResponse) = Return tt ->
        exists es,
          runFlow w this now flowIdOrName langflowId inputValue inputType
            outputType tweaks stream callbacks
          = (Return (Handle es),
             io ++ [OpenStream (stream_url_of initResponse)])
          /\ consumer_state es
          /\ es_url es = stream_url_of initResponse
          /\ handlers es = callbacks
          /\ closed es = false
          /\ timers es = [(1%nat, now + 30000)]).
Proof.
  intros w this now flowIdOrName langflowId inputValue inputType outputType
    tweaks stream callbacks initResponse io Hs Hinit.
  assert (Hd : default_arg stream (JBool false) = stream)
    by (destruct stream; try reflexivity; discriminate).
  split.
  - intros Hurl. unfold runFlow. rewrite Hd, Hinit, Hs, Hurl. reflexivity.
  - intros Hurl Hctor.
    exists (snd (resetHeartbeat now
                   (connecting (stream_url_of initResponse) callbacks))).
    assert (Hh : handleStream (EventSource_new w) now
                   (stream_url_of initResponse) callbacks
                 = Return (snd (resetHeartbeat now
                             (connecting (stream_url_of initResponse)
                                callbacks)))).
    { unfold handleStream. now rewrite Hurl, Hctor. }
    split.
    + unfold runFlow. rewrite Hd, Hinit, Hs, Hurl. cbn [andb].
      now rewrite Hh.
    + split; [exact (consumer_attached _ _ _ _ _ Hh)|].
      repeat split.
Qed.

Lemma runFlow_stream_mode_witness :
  exists es,
    fst (runFlow
           (respond 200 "OK"
              (Return (JObj [("outputs",
                 JArr [JObj [("outputs",
                    JArr [JObj [("artifacts",
                       JObj [("stream_url", JStr "https://stream")])]])]])])))
           a_client 5 (JStr "flow") (JStr "group") (JStr "rust") JUndefined
           JUndefined JUndefined (JBool true) quiet)
    = Return (Handle es)
    /\ timers es = [(1%nat, 30005)].
Proof.
  destruct (proj2 (runFlow_stream_mode
              (respond 200 "OK"
                 (Return (JObj [("outputs",
                    JArr [JObj [("outputs",
                       JArr [JObj [("artifacts",
                          JObj [("stream_url", JStr "https://stream")])]])]])])))
              a_client 5 (JStr "flow") (JStr "group") (JStr "rust") JUndefined
              JUndefined JUndefined (JBool true) quiet _ _ eq_refl eq_refl)
              eq_refl eq_refl)
    as (es & Hrun & _ & _ & _ & _ & Ht).
  exists es. split; [now rewrite Hrun | exact Ht].
Defined.

(** X14.  the failures of [runFlow].  Every rejection of [runFlow] is a
    plain [Error] whose message begins with [Flow execution failed: ],
    and it comes from one of two places: [initiateSession] rejected, or
    the [EventSource] constructor threw on the stream URL.  The guard of
    [handleStream] on an empty URL is never the cause, since [runFlow]
    only hands it a truthy one. *)
Theorem runFlow_failure_origin :
  forall (w : World) (this : LangflowClient) (now : Z)
         (flowIdOrName langflowId inputValue inputType outputType tweaks
            stream : JsVal)
         (callbacks : Callbacks) (e : JsError) (io : list IO),
    runFlow w this now flowIdOrName langflowId inputValue inputType outputType
      tweaks stream callbacks = (Throw e, io) ->
    starts_with "Flow execution failed: " (message e)
    /\ statusCode e = None
    /\ ((exists cause,
            initiateSession w this flowIdOrName langflowId inputValue
              (default_arg inputType (JStr "chat"))
              (default_arg outputType (JStr "chat"))
              (default_arg stream (JBool false))
              (default_arg tweaks (JObj []))
            = (Throw cause, io)
            /\ message e = "Flow execution failed: " +:+ message cause)
        \/ (exists cause streamUrl,
               truthy streamUrl = true
               /\ EventSource_new w streamUrl = Throw cause
               /\ message e = "Flow execution failed: " +:+ message cause)).
Proof.
  intros w this now flowIdOrName langflowId inputValue inputType outputType
    tweaks stream callbacks e io. unfold runFlow.
  destruct (initiateSession w this flowIdOrName langflowId inputValue
              (default_arg inputType (JStr "chat"))
              (default_arg outputType (JStr "chat"))
              (default_arg stream (JBool false))
              (default_arg tweaks (JObj []))) as [[r|cause] io0].
  - destruct (truthy (default_arg stream (JBool false))); cbn [andb];
      [|discriminate].
    destruct (truthy (stream_url_of r)) eqn:Hurl; [|discriminate].
    unfold handleStream. rewrite Hurl. cbn [negb].
    destruct (EventSource_new w (stream_url_of r)) as [[]|cause] eqn:Hctor;
      [discriminate|].
    intros [= <- <-]. cbn [message statusCode Error].
    split; [apply starts_with_app|]. split; [reflexivity|].
    right. exists cause, (stream_url_of r). auto.
  - intros [= <- <-]. cbn [message statusCode Error].
    split; [apply starts_with_app|]. split; [reflexivity|].
    left. exists cause. auto.
Qed.

Lemma runFlow_failure_origin_witness :
  starts_with "Flow execution failed: "
    "Flow execution failed: Request failed: ECONNREFUSED".
Proof.
  exact (proj1 (runFlow_failure_origin (unreachable "ECONNREFUSED") a_client 5
                  (JStr "flow") (JStr "group") (JStr "rust") JUndefined
                  JUndefined JUndefined JUndefined quiet _ _ eq_refl)).
Defined.

(** ** Lookup: the failures of a miss *)

Lemma orchestration_with_credential w later inputValue inputType outputType
    stream :
  truthy (MODEL_TOKEN w) = true ->
  exists langflowClient,
    new_LangflowClient (JStr "https://api.langflow.astra.datastax.com")
      (MODEL_TOKEN w) = Return langflowClient
    /\ orchestration w later inputValue inputType outputType stream
       = Some (runFlow w langflowClient later flowIdOrName langflowId
                 inputValue
                 (default_arg inputType (JStr "chat"))
                 (default_arg outputType (JStr "chat"))
                 tweaks
                 (default_arg stream (JBool false))
                 console_callbacks).
Proof.
  intros H. unfold orchestration, new_LangflowClient.
  cbn [truthy negb orb String.eqb]. rewrite H. cbn [negb].
  eexists. split; reflexivity.
Qed.

(** X15.  no credential.  On a miss, when [MODEL_TOKEN] is missing or
    empty, [getInsights] rejects with the error
    [MODEL_TOKEN environment variable is not set], as it is (the throw is
    outside the [try] that adds [Failed to get insights: ]), and performs
    no network effect; the route answers with the generic 500 reply. *)
Theorem getInsights_without_credential :
  forall (w : World) (now later : Z) (c : Cache.NodeCache),
    truthy (MODEL_TOKEN w) = false ->
    (forall inputValue inputType outputType stream,
        truthy (fst (Cache.get now (cacheKey inputValue) c)) = false ->
        getInsights w now later inputValue inputType outputType stream c
        = (Throw (Error "MODEL_TOKEN environment variable is not set"),
           snd (Cache.get now (cacheKey inputValue) c), []))
    /\ (forall keyword : string,
           truthy (fst (Cache.get now (cacheKey (JStr keyword)) c)) = false ->
           GET_insights w now later keyword c
           = (internal_server_error,
              snd (Cache.get now (cacheKey (JStr keyword)) c), [])).
Proof.
  intros w now later c Htok. split.
  - intros inputValue inputType outputType stream Hmiss.
    now apply getInsights_no_credential.
  - intros keyword Hmiss. unfold GET_insights, insights_handler.
    now rewrite (getInsights_no_credential w now later (JStr keyword)
                   JUndefined JUndefined JUndefined c Hmiss Htok).
Qed.

Lemma getInsights_without_credential_witness :
  GET_insights
    {| fetch := fun _ => Rejected (Error "ECONNREFUSED");
       EventSource_new := fun _ => Return tt;
       MODEL_TOKEN := JUndefined |}
    0 5 "rust" Cache.insightsCache
  = (internal_server_error, Cache.insightsCache, []).
Proof.
  exact (proj2 (getInsights_without_credential
                  {| fetch := fun _ => Rejected (Error "ECONNREFUSED");
                     EventSource_new := fun _ => Return tt;
                     MODEL_TOKEN := JUndefined |}
                  0 5 Cache.insightsCache eq_refl) "rust" eq_refl).
Defined.

(** X16.  empty keyword.  On a miss with the credential configured, a
    keyword that is missing or falsy (the empty string) is stopped by the
    guard of [initiateSession]: [getInsights] rejects with
    [Missing required parameters] behind both prefixes, and no request
    is issued. *)
Theorem getInsights_empty_keyword :
  forall (w : World) (now later : Z)
         (inputValue inputType outputType stream : JsVal)
         (c : Cache.NodeCache),
    truthy (fst (Cache.get now (cacheKey inputValue) c)) = false ->
    truthy (MODEL_TOKEN w) = true ->
    truthy inputValue = false ->
    getInsights w now later inputValue inputType outputType stream c
    = (Throw (Error "Failed to get insights: Flow execution failed: Missing required parameters"),
       snd (Cache.get now (cacheKey inputValue) c), []).
Proof.
  intros w now later inputValue inputType outputType stream c Hmiss Htok Hkw.
  destruct (orchestration_with_credential w later inputValue inputType
              outputType stream Htok) as (client & _ & Ho).
  assert (Hrun : runFlow w client later flowIdOrName langflowId inputValue
                   (default_arg inputType (JStr "chat"))
                   (default_arg outputType (JStr "chat"))
                   tweaks (default_arg stream (JBool false)) console_callbacks
                 = (Throw (Error "Flow execution failed: Missing required parameters"),
                    [])).
  { unfold runFlow. rewrite initiateSession_guard; [reflexivity|].
    rewrite Hkw. apply andb_false_r. }
  rewrite Hrun in Ho.
  now rewrite (getInsights_miss w now later inputValue inputType outputType
                 stream c _ _ Hmiss Ho).
Qed.

Lemma getInsights_empty_keyword_witness :
  getInsights hello_upstream 0 5 (JStr "") JUndefined JUndefined JUndefined
    Cache.insightsCache
  = (Throw (Error "Failed to get insights: Flow execution failed: Missing required parameters"),
     Cache.insightsCache, []).
Proof.
  exact (getInsights_empty_keyword hello_upstream 0 5 (JStr "") JUndefined
           JUndefined JUndefined Cache.insightsCache eq_refl eq_refl eq_refl).
Defined.

(** X17.  the rejections of [getInsights].  A call that rejects has stored
    nothing, and its error is a plain [Error] of one of two kinds: the
    credential error, as it is and before any network effect, when
    [MODEL_TOKEN] is not set; otherwise an error whose message begins with
    [Failed to get insights: ].  The guard of the client's constructor is
    never the cause. *)
Theorem getInsights_rejections :
  forall (w : World) (now later : Z)
         (inputValue inputType outputType stream : JsVal)
         (c c' : Cache.NodeCache) (e : JsError) (io : list IO),
    getInsights w now later inputValue inputType outputType stream c
    = (Throw e, c', io) ->
    c' = snd (Cache.get now (cacheKey inputValue) c)
    /\ statusCode e = None
    /\ ((truthy (MODEL_TOKEN w) = false
         /\ e = Error "MODEL_TOKEN environment variable is not set"
         /\ io = [])
        \/ (truthy (MODEL_TOKEN w) = true
            /\ starts_with "Failed to get insights: " (message e)))
    /\ message e <> "baseURL and applicationToken are required".
Proof.
  intros w now later inputValue inputType outputType stream c c' e io.
  destruct (truthy (fst (Cache.get now (cacheKey inputValue) c))) eqn:Hmiss.
  { rewrite getInsights_hit by exact Hmiss. discriminate. }
  destruct (truthy (MODEL_TOKEN w)) eqn:Htok.
  - destruct (orchestration_with_credential w later inputValue inputType
                outputType stream Htok) as (client & _ & Ho).
    match type of Ho with
    | _ = Some ?r => destruct r as [[response|error] io0]
    end;
      rewrite (getInsights_miss w now later inputValue inputType outputType
                 stream c _ _ Hmiss Ho).
    + destruct (negb (truthy stream) && truthy (text_of response));
        [discriminate|].
      intros [= <- <- <-]. split; [reflexivity|]. split; [reflexivity|].
      split; [|discriminate].
      right. split; [reflexivity|]. now exists "Invalid response format".
    + intros [= <- <- <-]. cbn [message statusCode Error].
      split; [reflexivity|]. split; [reflexivity|].
      split; [|intros H; cbn in H; discriminate].
      right. split; [reflexivity|]. apply starts_with_app.
  - rewrite (getInsights_no_credential w now later inputValue inputType
               outputType stream c Hmiss Htok).
    intros [= <- <- <-]. cbn [message statusCode Error].
    split; [reflexivity|]. split; [reflexivity|]. split; [now left|].
    discriminate.
Qed.

Lemma getInsights_rejections_witness :
  starts_with "Failed to get insights: "
    "Failed to get insights: Flow execution failed: Request failed: HTTP 503: Service Unavailable".
Proof.
  destruct (getInsights_rejections
              (respond 503 "Service Unavailable" (Return (JObj [])))
              0 5 (JStr "rust") JUndefined JUndefined JUndefined
              Cache.insightsCache _ _ _ eq_refl)
    as (_ & _ & [(H & _) | (_ & H)] & _).
  - discriminate H.
  - exact H.
Defined.

(** X18.  the chain of a transport failure.  On a miss with the credential
    configured and a keyword present, when [fetch] rejects, the message of
    the cause reaches the caller of [getInsights] behind the three
    prefixes of [getInsights], [runFlow] and [post], after exactly one
    request and no retry. *)
Theorem getInsights_transport_failure :
  forall (w : World) (now later : Z)
         (inputValue inputType outputType stream : JsVal)
         (c : Cache.NodeCache) (cause : JsError),
    truthy (fst (Cache.get now (cacheKey inputValue) c)) = false ->
    truthy (MODEL_TOKEN w) = true ->
    truthy inputValue = true ->
    (forall req, fetch w req = Rejected cause) ->
    exists req,
      getInsights w now later inputValue inputType outputType stream c
      = (Throw (Error ("Failed to get insights: Flow execution failed: "
                       +:+ "Request failed: " +:+ message cause)),
         snd (Cache.get now (cacheKey inputValue) c), [Fetch req]).
Proof.
  intros w now later inputValue inputType outputType stream c cause
    Hmiss Htok Hkw Hfetch.
  destruct (orchestration_with_credential w later inputValue inputType
              outputType stream Htok) as (client & _ & Ho).
  assert (Hrun : exists req,
             runFlow w client later flowIdOrName langflowId inputValue
               (default_arg inputType (JStr "chat"))
               (default_arg outputType (JStr "chat"))
               tweaks (default_arg stream (JBool false)) console_callbacks
             = (Throw (Error ("Flow execution failed: " +:+ "Request failed: "
                              +:+ message cause)),
                [Fetch req])).
  { unfold runFlow, initiateSession. rewrite Hkw.
    cbn [flowIdOrName langflowId truthy String.eqb negb orb].
    unfold post. eexists. rewrite Hfetch. reflexivity. }
  destruct Hrun as [req Hrun]. rewrite Hrun in Ho. exists req.
  now rewrite (getInsights_miss w now later inputValue inputType outputType
                 stream c _ _ Hmiss Ho).
Qed.

Lemma getInsights_transport_failure_witness :
  exists req,
    getInsights (unreachable "getaddrinfo ENOTFOUND") 0 5 (JStr "rust")
      JUndefined JUndefined JUndefined Cache.insightsCache
    = (Throw (Error "Failed to get insights: Flow execution failed: Request failed: getaddrinfo ENOTFOUND"),
       Cache.insightsCache, [Fetch req]).
Proof.
  exact (getInsights_transport_failure (unreachable "getaddrinfo ENOTFOUND")
           0 5 (JStr "rust") JUndefined JUndefined JUndefined
           Cache.insightsCache (Error "getaddrinfo ENOTFOUND")
           eq_refl eq_refl eq_refl (fun _ => eq_refl)).
Defined.

(** X19.  stream mode.  On a miss, a call of [getInsights] in stream mode
    never resolves and never stores anything, whatever the upstream
    answers. *)
Theorem getInsights_stream_mode_rejects :
  forall (w : World) (now later : Z)
         (inputValue inputType outputType stream : JsVal)
         (c : Cache.NodeCache),
    truthy stream = true ->
    truthy (fst (Cache.get now (cacheKey inputValue) c)) = false ->
    exists e io,
      getInsights w now later inputValue inputType outputType stream c
      = (Throw e, snd (Cache.get now (cacheKey inputValue) c), io).
Proof.
  intros w now later inputValue inputType outputType stream c Hs Hmiss.
  destruct (truthy (MODEL_TOKEN w)) eqn:Htok.
  - destruct (orchestration_with_credential w later inputValue inputType
                outputType stream Htok) as (client & _ & Ho).
    match type of Ho with
    | _ = Some ?r => destruct r as [[response|error] io0]
    end;
      rewrite (getInsights_miss w now later inputValue inputType outputType
                 stream c _ _ Hmiss Ho).
    + rewrite Hs. cbn [negb andb]. eauto.
    + eauto.
  - rewrite (getInsights_no_credential w now later inputValue inputType
               outputType stream c Hmiss Htok). eauto.
Qed.

Lemma getInsights_stream_mode_rejects_witness :
  exists e io,
    getInsights hello_upstream 0 5 (JStr "rust") JUndefined JUndefined
      (JBool true) Cache.insightsCache
    = (Throw e, Cache.insightsCache, io).
Proof.
  exact (getInsights_stream_mode_rejects hello_upstream 0 5 (JStr "rust")
           JUndefined JUndefined (JBool true) Cache.insightsCache
           eq_refl eq_refl).
Defined.

(** ** Lookup: what a call does to the cache *)

Lemma cacheKey_string_injective a b :
  cacheKey (JStr a) = cacheKey (JStr b) -> a = b.
Proof. unfold cacheKey. cbn. intros H. now inversion H. Qed.

Lemma getInsights_other_key w now later inputValue inputType outputType
    stream c k :
  k <> cacheKey inputValue ->
  Cache.data (snd (fst (getInsights w now later inputValue inputType
                          outputType stream c))) !! k
  = Cache.data c !! k.
Proof.
  intros Hk.
  assert (H0 : Cache.data (snd (Cache.get now (cacheKey inputValue) c)) !! k
               = Cache.data c !! k).
  { unfold Cache.get.
    destruct (Cache.data c !! cacheKey inputValue) as [e|]; [|reflexivity].
    destruct (Cache.alive now e); [reflexivity|].
    cbn [snd Cache.data]. now apply lookup_delete_ne. }
  destruct (getInsights_cache w now later inputValue inputType outputType
              stream c) as [-> | (o & _ & ->)]; [exact H0|].
  unfold Cache.set. cbn [Cache.data].
  rewrite lookup_insert_ne by congruence. exact H0.
Qed.

(** A live, truthy entry survives any call that looks the cache up
    before the entry's deadline. *)
Lemma cache_after_keeps_entry (k : Call) c key e :
  Cache.data c !! key = Some e ->
  truthy (Cache.v e) = true ->
  call_now k <= Cache.t e ->
  Cache.data (cache_after k c) !! key = Some e.
Proof.
  intros He Hv Hnow. unfold cache_after.
  destruct (String.eqb_spec key (cacheKey (call_inputValue k))) as [E|E].
  - subst key.
    assert (Ha : Cache.alive (call_now k) e = true).
    { unfold Cache.alive. apply Z.ltb_ge in Hnow. rewrite Hnow.
      now rewrite andb_false_r. }
    pose proof (cache_get_alive (call_now k) _ c e He Ha) as Hget.
    rewrite getInsights_hit; rewrite Hget; cbn [fst snd]; auto.
  - rewrite getInsights_other_key by exact E. exact He.
Qed.

Lemma cache_after_calls_keeps_entry (between : list Call) :
  forall c key e,
    Cache.data c !! key = Some e ->
    truthy (Cache.v e) = true ->
    Forall (fun k => call_now k <= Cache.t e) between ->
    Cache.data (cache_after_calls between c) !! key = Some e.
Proof.
  induction between as [|k rest IH]; intros c key e He Hv Hall; [exact He|].
  inversion Hall as [|? ? Hk Hrest]; subst.
  cbn [cache_after_calls List.fold_left]. apply IH; auto.
  now apply cache_after_keeps_entry.
Qed.

(** X20.  repeated lookup.  A call fetched and stored a value.  Then
    any number of calls run one after another, each to its end before
    the next begins, for the same keyword or for others, each looking the
    cache up within the hour.  After them, a call for the same keyword
    within the hour still resolves with the stored value, performs no
    network effect and leaves the cache as it is, whatever the host and
    the other arguments.  (A call that overlaps the storing one, having
    looked the cache up before the value was stored, is not such a
    call.)  After the hour, a lookup on the cache as the storing call
    left it gives [undefined] and drops the entry, so the next call goes
    upstream again. *)
Theorem getInsights_repeated_lookup :
  forall (w : World) (now later : Z)
         (inputValue inputType outputType stream : JsVal)
         (c : Cache.NodeCache) (response : FlowResult) (io : list IO),
    cache_state c -> 0 <= later ->
    truthy (fst (Cache.get now (cacheKey inputValue) c)) = false ->
    orchestration w later inputValue inputType outputType stream
    = Some (Return response, io) ->
    truthy stream = false ->
    truthy (text_of response) = true ->
    let c' :=
      Cache.set later (cacheKey inputValue) (text_of response)
        (snd (Cache.get now (cacheKey inputValue) c)) in
    getInsights w now later inputValue inputType outputType stream c
    = (Return (text_of response), c', io)
    /\ (forall (between : list Call) w2 now2 later2 inputType2 outputType2
               stream2,
           Forall (fun k => call_now k <= later + ONE_HOUR_MS) between ->
           now2 <= later + ONE_HOUR_MS ->
           getInsights w2 now2 later2 inputValue inputType2 outputType2
             stream2 (cache_after_calls between c')
           = (Return (text_of response), cache_after_calls between c', []))
    /\ (forall now2,
           later + ONE_HOUR_MS < now2 ->
           fst (Cache.get now2 (cacheKey inputValue) c') = JUndefined
           /\ Cache.data (snd (Cache.get now2 (cacheKey inputValue) c'))
              !! cacheKey inputValue = None).
Proof.
  intros w now later inputValue inputType outputType stream c response io
    Hc Hl Hmiss Ho Hs Htext c'.
  destruct (cache_get_inv now (cacheKey inputValue) c (cache_state_inv c Hc))
    as [Httl _].
  assert (He : Cache.data c' !! cacheKey inputValue
               = Some {| Cache.v := text_of response;
                         Cache.t := later + ONE_HOUR_MS |}).
  { unfold c', Cache.set. cbn [Cache.data].
    rewrite lookup_insert_eq, Httl. reflexivity. }
  split; [|split].
  - rewrite (getInsights_miss w now later inputValue inputType outputType
               stream c _ _ Hmiss Ho).
    now rewrite Hs, Htext.
  - intros between w2 now2 later2 inputType2 outputType2 stream2 Hall Hle.
    pose proof (cache_after_calls_keeps_entry between c' _ _ He Htext Hall)
      as He'.
    assert (Ha : Cache.alive now2 {| Cache.v := text_of response;
                                     Cache.t := later + ONE_HOUR_MS |} = true).
    { unfold Cache.alive. cbn [Cache.t].
      apply Z.ltb_ge in Hle. rewrite Hle. now rewrite andb_false_r. }
    pose proof (cache_get_alive now2 _ _ _ He' Ha) as Hget.
    rewrite getInsights_hit; rewrite Hget; cbn [fst snd Cache.v]; auto.
  - intros now2 Hlt. unfold Cache.get. rewrite He.
    unfold Cache.alive, ONE_HOUR_MS in *. cbn [Cache.t].
    destruct (Z.eqb_spec (later + 3600 * 1000) 0) as [E|_]; [lia|].
    apply Z.ltb_lt in Hlt. rewrite Hlt. cbn [negb andb fst snd Cache.data].
    split; [reflexivity|apply lookup_delete_eq].
Qed.

Lemma getInsights_repeated_lookup_witness :
  fst (fst (getInsights (unreachable "ECONNREFUSED") 3600005 3600100
              (JStr "rust") (JStr "text") JUndefined (JBool true)
              (cache_after_calls
                 [{| call_world := respond 200 "OK"
                                     (Return (nested_text (JStr "gopher")));
                     call_now := 10; call_later := 20;
                     call_inputValue := JStr "go";
                     call_inputType := JUndefined;
                     call_outputType := JUndefined;
                     call_stream := JUndefined |};
                  {| call_world := respond 200 "OK"
                                     (Return (nested_text (JStr "other")));
                     call_now := 30; call_later := 40;
                     call_inputValue := JStr "rust";
                     call_inputType := JUndefined;
                     call_outputType := JUndefined;
                     call_stream := JUndefined |}]
                 rust_cached)))
  = Return (JStr "hello")
  /\ fst (Cache.get 3600006 (cacheKey (JStr "rust")) rust_cached) = JUndefined.
Proof.
  assert (Hl : 0 <= 5) by discriminate.
  destruct (getInsights_repeated_lookup hello_upstream 0 5 (JStr "rust")
              JUndefined JUndefined JUndefined Cache.insightsCache
              (InitResponse (nested_text (JStr "hello"))) _
              cache_created Hl eq_refl eq_refl eq_refl eq_refl)
    as (_ & H2 & H3).
  split.
  - assert (Hle : 3600005 <= 5 + ONE_HOUR_MS) by discriminate.
    assert (Hall : Forall (fun k => call_now k <= 5 + ONE_HOUR_MS)
                     [{| call_world := respond 200 "OK"
                                         (Return (nested_text (JStr "gopher")));
                         call_now := 10; call_later := 20;
                         call_inputValue := JStr "go";
                         call_inputType := JUndefined;
                         call_outputType := JUndefined;
                         call_stream := JUndefined |};
                      {| call_world := respond 200 "OK"
                                         (Return (nested_text (JStr "other")));
                         call_now := 30; call_later := 40;
                         call_inputValue := JStr "rust";
                         call_inputType := JUndefined;
                         call_outputType := JUndefined;
                         call_stream := JUndefined |}]).
    { repeat constructor; discriminate. }
    exact (f_equal (fun r => fst (fst r))
             (H2 _ (unreachable "ECONNREFUSED") 3600005 3600100
                 (JStr "text") JUndefined (JBool true) Hall Hle)).
  - assert (Hlt : 5 + ONE_HOUR_MS < 3600006) by reflexivity.
    exact (proj1 (H3 3600006 Hlt)).
Defined.

(** X21.  one key per call.  A call of [getInsights] changes no entry of
    the cache other than the one under the key of its keyword, and keeps
    the time to live of the cache; since the keys of two different
    string keywords differ, a lookup of one keyword never disturbs the
    entry of another. *)
Theorem getInsights_touches_one_key :
  forall (w : World) (now later : Z)
         (inputValue inputType outputType stream : JsVal)
         (c : Cache.NodeCache),
    let c' := snd (fst (getInsights w now later inputValue inputType
                          outputType stream c)) in
    Cache.stdTTL c' = Cache.stdTTL c
    /\ (forall k, k <> cacheKey inputValue ->
                  Cache.data c' !! k = Cache.data c !! k)
    /\ (forall a b : string,
           inputValue = JStr a -> a <> b ->
           Cache.data c' !! cacheKey (JStr b)
           = Cache.data c !! cacheKey (JStr b)).
Proof.
  intros w now later inputValue inputType outputType stream c c'.
  assert (H0 : Cache.stdTTL (snd (Cache.get now (cacheKey inputValue) c))
               = Cache.stdTTL c
               /\ forall k, k <> cacheKey inputValue ->
                    Cache.data (snd (Cache.get now (cacheKey inputValue) c))
                    !! k = Cache.data c !! k).
  { unfold Cache.get.
    destruct (Cache.data c !! cacheKey inputValue) as [e|]; [|now split].
    destruct (Cache.alive now e); [now split|].
    split; [reflexivity|]. intros k Hk. cbn [snd Cache.data].
    now apply lookup_delete_ne. }
  destruct H0 as [Httl Hother].
  assert (H : Cache.stdTTL c' = Cache.stdTTL c
              /\ forall k, k <> cacheKey inputValue ->
                   Cache.data c' !! k = Cache.data c !! k).
  { unfold c'.
    destruct (getInsights_cache w now later inputValue inputType outputType
                stream c) as [-> | (o & _ & ->)].
    - now split.
    - split; [exact Httl|]. intros k Hk. unfold Cache.set. cbn [Cache.data].
      rewrite lookup_insert_ne by congruence. now apply Hother. }
  destruct H as [H1 H2]. split; [exact H1|]. split; [exact H2|].
  intros a b -> Hab. apply H2. intros E.
  apply cacheKey_string_injective in E. congruence.
Qed.

Lemma getInsights_touches_one_key_witness :
  Cache.data
    (snd (fst (getInsights (unreachable "ECONNREFUSED") 10 20 (JStr "go")
                 JUndefined JUndefined JUndefined rust_cached)))
  !! cacheKey (JStr "rust")
  = Cache.data rust_cached !! cacheKey (JStr "rust").
Proof.
  assert (Hne : "go" <> "rust") by discriminate.
  exact (proj2 (proj2 (getInsights_touches_one_key
                         (unreachable "ECONNREFUSED") 10 20 (JStr "go")
                         JUndefined JUndefined JUndefined rust_cached))
           "go" "rust" eq_refl Hne).
Defined.

(** ** Lookup: what a call returns and asks for *)

Lemma getInsights_value_truthy w now later inputValue inputType outputType
    stream c c' value io :
  getInsights w now later inputValue inputType outputType stream c
  = (Return value, c', io) ->
  truthy value = true.
Proof.
  destruct (truthy (fst (Cache.get now (cacheKey inputValue) c))) eqn:Hhit.
  - rewrite getInsights_hit by exact Hhit. now intros [= <- _ _].
  - destruct (truthy (MODEL_TOKEN w)) eqn:Htok.
    + destruct (orchestration_with_credential w later inputValue inputType
                  outputType stream Htok) as (client & _ & Ho).
      match type of Ho with
      | _ = Some ?r => destruct r as [[response|error] io0]
      end;
        rewrite (getInsights_miss w now later inputValue inputType outputType
                   stream c _ _ Hhit Ho); [|discriminate].
      destruct (negb (truthy stream) && truthy (text_of response)) eqn:Hg;
        [|discriminate].
      intros [= <- _ _]. now apply andb_true_iff in Hg.
    + rewrite (getInsights_no_credential w now later inputValue inputType
                 outputType stream c Hhit Htok). discriminate.
Qed.

(** X22.  a resolved lookup is truthy.  Whatever the cache holds and
    whatever the upstream answers, [getInsights] never resolves with
    [undefined], [null], [false], the empty string or any other falsy
    value. *)
Theorem getInsights_resolves_with_truthy_value :
  forall (w : World) (now later : Z)
         (inputValue inputType outputType stream : JsVal)
         (c c' : Cache.NodeCache) (value : JsVal) (io : list IO),
    getInsights w now later inputValue inputType outputType stream c
    = (Return value, c', io) ->
    truthy value = true
    /\ value <> JUndefined /\ value <> JNull /\ value <> JBool false
    /\ value <> JStr "".
Proof.
  intros w now later inputValue inputType outputType stream c c' value io H.
  apply getInsights_value_truthy in H.
  split; [exact H|]. repeat split; intros ->; discriminate.
Qed.

Lemma getInsights_resolves_with_truthy_value_witness :
  truthy (JStr "hello") = true.
Proof.
  exact (proj1 (getInsights_resolves_with_truthy_value hello_upstream 0 5
                  (JStr "rust") JUndefined JUndefined JUndefined
                  Cache.insightsCache _ _ _ eq_refl)).
Defined.

(** X23.  one request at most.  A call of [getInsights] issues at most one
    request and never repeats a failed one; it constructs an
    [EventSource] only in stream mode, after that request, and at most
    once. *)
Theorem getInsights_issues_at_most_one_request :
  forall (w : World) (now later : Z)
         (inputValue inputType outputType stream : JsVal)
         (c : Cache.NodeCache),
    let io := snd (getInsights w now later inputValue inputType outputType
                     stream c) in
    io = []
    \/ (exists req, io = [Fetch req])
    \/ (exists req streamUrl,
           io = [Fetch req; OpenStream streamUrl] /\ truthy stream = true).
Proof.
  intros w now later inputValue inputType outputType stream c io. subst io.
  destruct (truthy (fst (Cache.get now (cacheKey inputValue) c))) eqn:Hhit.
  { rewrite getInsights_hit by exact Hhit. now left. }
  destruct (truthy (MODEL_TOKEN w)) eqn:Htok.
  2:{ rewrite (getInsights_no_credential w now later inputValue inputType
                 outputType stream c Hhit Htok). now left. }
  destruct (orchestration_with_credential w later inputValue inputType
              outputType stream Htok) as (client & _ & Ho).
  assert (Hio : forall res io0,
             runFlow w client later flowIdOrName langflowId inputValue
               (default_arg inputType (JStr "chat"))
               (default_arg outputType (JStr "chat"))
               tweaks (default_arg stream (JBool false)) console_callbacks
             = (res, io0) ->
             io0 = []
             \/ (exists req, io0 = [Fetch req])
             \/ (exists req streamUrl,
                    io0 = [Fetch req; OpenStream streamUrl]
                    /\ truthy stream = true)).
  { intros res io0. unfold runFlow, initiateSession.
    rewrite !default_arg_idem. rewrite truthy_default_stream.
    destruct (negb (truthy flowIdOrName) || negb (truthy langflowId)
              || negb (truthy inputValue)).
    - intros [= _ <-]. now left.
    - unfold post. cbn [fst snd].
      match goal with
      | |- context [fetch w ?r] => destruct (fetch w r) as [cause | r']
      end.
      + intros [= _ <-]. right. left. eauto.
      + destruct (ok r'); cbn [negb].
        * destruct (json r') as [body|e].
          -- destruct (truthy stream) eqn:Hs; cbn [andb].
             ++ destruct (truthy (stream_url_of body)).
                ** destruct (handleStream _ _ _ _); intros [= _ <-];
                     right; right; eauto.
                ** intros [= _ <-]. right. left. eauto.
             ++ intros [= _ <-]. right. left. eauto.
          -- intros [= _ <-]. right. left. eauto.
        * destruct (member _ _) as [m|e]; [destruct (ToString _)|];
            intros [= _ <-]; right; left; eauto.
  }
  match type of Ho with
  | _ = Some ?r => destruct r as [res io0] eqn:Hrun
  end.
  specialize (Hio res io0 eq_refl).
  rewrite (getInsights_miss w now later inputValue inputType outputType
             stream c _ _ Hhit Ho).
  destruct res as [response|error]; [|exact Hio].
  now destruct (negb (truthy stream) && truthy (text_of response)).
Qed.

(** ** HTTP boundary: the two replies *)

(** X24.  the replies to a handled request.  For a request that reached
    the handler (its keyword passed the schema of the route, so it is not
    empty, and is within the 100 characters that the framework lets
    through in a path parameter), the route answers a lookup that resolved with status 200 and
    the body [{success: true, data}], where [data] is the value of the
    lookup and is truthy; it answers every other lookup with status 500
    and the generic body; a handled request gets no third reply.  What
    the framework answers to a request it turns down before the handler
    is not part of this statement. *)
Theorem GET_insights_replies :
  forall (w : World) (now later : Z) (keyword : string)
         (c : Cache.NodeCache),
    keyword <> "" -> (String.length keyword <= 100)%nat ->
    (forall value c' io,
        getInsights w now later (JStr keyword) JUndefined JUndefined
          JUndefined c = (Return value, c', io) ->
        GET_insights w now later keyword c
        = ({| code := 200;
              payload := JObj [("success", JBool true); ("data", value)] |},
           c', io)
        /\ truthy value = true)
    /\ (code (fst (fst (GET_insights w now later keyword c))) = 200%N
        \/ fst (fst (GET_insights w now later keyword c))
           = internal_server_error).
Proof.
  intros w now later keyword c _ _. split.
  - intros value c' io H. split.
    + unfold GET_insights, insights_handler. now rewrite H.
    + exact (getInsights_value_truthy w now later (JStr keyword) JUndefined
               JUndefined JUndefined c c' value io H).
  - unfold GET_insights, insights_handler.
    destruct (getInsights w now later (JStr keyword) JUndefined JUndefined
                JUndefined c) as [[[value|e] c'] io]; cbn; auto.
Qed.

Lemma GET_insights_replies_witness :
  GET_insights hello_upstream 0 5 "rust" Cache.insightsCache
  = ({| code := 200;
        payload := JObj [("success", JBool true); ("data", JStr "hello")] |},
     rust_cached,
     snd (getInsights hello_upstream 0 5 (JStr "rust") JUndefined JUndefined
            JUndefined Cache.insightsCache)).
Proof.
  assert (Hne : "rust" <> "") by discriminate.
  assert (Hlen : (String.length "rust" <= 100)%nat) by (cbn; lia).
  exact (proj1 (proj1 (GET_insights_replies hello_upstream 0 5 "rust"
                         Cache.insightsCache Hne Hlen) _ _ _ eq_refl)).
Defined.
